(** * Skin analysis pipeline (skin_analyzer.py): a shallow embedding

    The development follows [SkinAnalyzer] of [skin_analyzer.py] method by
    method.  Python values are modelled as follows.

    - [int] is [Z]; floor division [//] is [Z.div].
    - A binary64 [float] is a rational [Q].  Every arithmetic operation is
      the exact operation followed by a rounding function [rnd]; the cast
      to [float32] is a second rounding function [rnd32].  Both are
      parameters, known only to be monotone (interface [Rounding]).
      NaN and infinities are outside the model.
    - A function that can raise returns an [outcome]; [try]/[except
      Exception] is [try_except].  Methods that mutate [self], the files on
      disk or numpy's process-wide random state run in the monad [M], whose
      state survives a raise, as in Python.
    - A [dict] is a [gmap]; a Python list or a 1-D array is a [list]; a 2-D
      array is a list of rows; the argument of the predictors, whose shape
      matters, is an [ndarray] (shape and row-major data).
    - OpenCV, numpy.random, scikit-learn and joblib are not part of the
      repository.  What they compute is left abstract (interfaces [Cv2],
      [NpRandom], [Sklearn]); the argument checks they document (empty
      input, array rank, feature count, class sizes) are written out.
    - An attribute holds a [pyobj], of whatever class was assigned or
      loaded; a method an object does not have raises [AttributeError].
      The disk maps a path to a pickle of an object or to something
      unreadable, and some paths cannot be written.
    - Logging has no effect on any result and is left out. *)

From Stdlib Require Import ZArith QArith Qabs List String Lia.
From stdpp Require Import gmap strings list.
Import ListNotations.

(** ** Python runtime: exceptions, outcomes, the state monad *)

Inductive exn : Type :=
| ValueError
| TypeError
| KeyError
| IndexError
| ZeroDivisionError
| NotFittedError
| FileNotFoundError
| UnpicklingError
| AttributeError
| OSError
| cv2_error.

Inductive outcome (A : Type) : Type :=
| Ret (a : A)
| Raise (e : exn).
Arguments Ret {A} a.
Arguments Raise {A} e.

Definition obind {A B} (c : outcome A) (k : A -> outcome B) : outcome B :=
  match c with
  | Ret a => k a
  | Raise e => Raise e
  end.

(** [try: body except Exception as e: handler e] for code without state. *)
Definition try_except {A} (body : outcome A) (handler : exn -> outcome A) : outcome A :=
  match body with
  | Ret a => Ret a
  | Raise e => handler e
  end.

Declare Scope py_scope.
Delimit Scope py_scope with py.
Notation "x <- c ;; k" := (obind c (fun x => k))
  (at level 100, c at next level, right associativity) : py_scope.

(** The monad of methods: a state [S] threaded through, kept on a raise. *)
Definition M (S A : Type) : Type := S -> outcome A * S.

Definition mret {S A} (a : A) : M S A := fun s => (Ret a, s).
Definition mraise {S A} (e : exn) : M S A := fun s => (Raise e, s).
Definition mbind {S A B} (c : M S A) (k : A -> M S B) : M S B :=
  fun s => match c s with
           | (Ret a, s') => k a s'
           | (Raise e, s') => (Raise e, s')
           end.
Definition mlift {S A} (c : outcome A) : M S A := fun s => (c, s).
Definition mget {S} : M S S := fun s => (Ret s, s).
Definition mmodify {S} (f : S -> S) : M S unit := fun s => (Ret tt, f s).

(** [try]/[except Exception] around stateful code: the handler runs in the
    state reached when the exception was raised. *)
Definition mtry {S A} (body : M S A) (handler : exn -> M S A) : M S A :=
  fun s => match body s with
           | (Ret a, s') => (Ret a, s')
           | (Raise e, s') => handler e s'
           end.

Declare Scope m_scope.
Delimit Scope m_scope with m.
Notation "x <- c ;; k" := (mbind c (fun x => k))
  (at level 100, c at next level, right associativity) : m_scope.
Notation "c ;;; k" := (mbind c (fun _ => k))
  (at level 100, right associativity) : m_scope.

(** [for x in l: acc = body acc x], the accumulator standing for the local
    variables the loop body updates. *)
Fixpoint mfor {S A Acc} (l : list A) (body : Acc -> A -> M S Acc) (acc : Acc) : M S Acc :=
  match l with
  | [] => mret acc
  | x :: l' => mbind (body acc x) (mfor l' body)
  end.

Fixpoint ofor {A Acc} (l : list A) (body : Acc -> A -> outcome Acc) (acc : Acc) : outcome Acc :=
  match l with
  | [] => Ret acc
  | x :: l' => obind (body acc x) (ofor l' body)
  end.

(** [range(k)]: empty when [k] is not positive. *)
Definition py_range (k : Z) : list Z := map Z.of_nat (seq 0 (Z.to_nat k)).

(** [enumerate(l)]. *)
Definition enumerate {A} (l : list A) : list (Z * A) :=
  combine (map Z.of_nat (seq 0 (length l))) l.

(** The bound of a slice [l[i:j]] brought into [0, len]: a negative index
    counts from the end. *)
Definition slice_index (len i : Z) : Z :=
  if (i <? 0)%Z then Z.max 0 (i + len) else Z.min i len.

Definition py_slice {A} (start stop : Z) (l : list A) : list A :=
  let n := Z.of_nat (length l) in
  let a := slice_index n start in
  let b := slice_index n stop in
  firstn (Z.to_nat (b - a)) (skipn (Z.to_nat a) l).

(** [a[i]] on a sequence: negative indices wrap once, anything else out of
    range raises [IndexError]. *)
Definition py_index {A} (l : list A) (i : Z) : outcome A :=
  let n := Z.of_nat (length l) in
  let j := if (i <? 0)%Z then (i + n)%Z else i in
  if (j <? 0)%Z then Raise IndexError
  else match l !! Z.to_nat j with
       | Some x => Ret x
       | None => Raise IndexError
       end.

(** [d[k]] on a dict. *)
Definition dict_get `{Countable K} {V} (d : gmap K V) (k : K) : outcome V :=
  match d !! k with
  | Some v => Ret v
  | None => Raise KeyError
  end.

(** [a, b, c = t]. *)
Definition unpack3 {A} (t : list A) : outcome (A * A * A) :=
  match t with
  | [a; b; c] => Ret (a, b, c)
  | _ => Raise ValueError
  end.

(** ** Floating point *)

Class Rounding : Type := {
  rnd : Q -> Q;
  rnd32 : Q -> Q;
  rnd_mono : forall a b : Q, (a <= b)%Q -> (rnd a <= rnd b)%Q;
  rnd32_mono : forall a b : Q, (a <= b)%Q -> (rnd32 a <= rnd32 b)%Q
}.

Section Floats.
Context {R : Rounding}.

Definition fadd (a b : Q) : Q := rnd (a + b).
Definition fmul (a b : Q) : Q := rnd (a * b).

(** [a / b] on floats; a zero divisor raises. *)
Definition fdiv (a b : Q) : outcome Q :=
  if Qeq_bool b 0 then Raise ZeroDivisionError else Ret (rnd (a / b)).

(** [a / b] on ints (true division). *)
Definition int_div (a b : Z) : outcome Q := fdiv (inject_Z a) (inject_Z b).
End Floats.

(** [a > b], [min(a, b)], [np.maximum], [np.minimum], [np.clip]. *)
Definition Qgtb (a b : Q) : bool := negb (Qle_bool a b).
Definition py_min (a b : Q) : Q := if Qgtb a b then b else a.
Definition np_maximum (a b : Q) : Q := if Qle_bool a b then b else a.
Definition np_minimum (a b : Q) : Q := if Qle_bool a b then a else b.
Definition np_clip (lo hi : Q) (x : Q) : Q := np_minimum (np_maximum x lo) hi.

(** ** Images and the OpenCV / numpy operations of the extractor *)

(** A colour image is rows of pixels, a pixel its channel values (uint8);
    a grayscale image is rows of intensities; [fimage] holds the float
    responses of a filter. *)
Definition pixel : Type := list Z.
Definition image : Type := list (list pixel).
Definition gray : Type := list (list Z).
Definition fimage : Type := list (list Q).

Class Cv2 : Type := {
  BGR2HSV : image -> outcome image;
  BGR2LAB : image -> outcome image;
  BGR2GRAY : image -> outcome gray;
  cv2_mean : image -> outcome (list Q);
  Laplacian : gray -> outcome fimage;
  Sobel : gray -> Z -> Z -> outcome fimage
}.

Class Numpy : Type := {
  np_std_axis01 : image -> list Q;
  np_var : fimage -> Q;
  np_mean : fimage -> Q;
  np_sqrt : Q -> Q;
  gray_std : gray -> Q;
  gray_mean : gray -> Q
}.

(** An array with no rows or no columns. *)
Definition img_empty {A} (src : list (list A)) : bool :=
  match src with
  | [] => true
  | [] :: _ => true
  | _ => false
  end.

(** [cv2.cvtColor(src, code)] refuses an empty source. *)
Definition cvtColor {A B} (code : list (list A) -> outcome B) (src : list (list A)) : outcome B :=
  if img_empty src then Raise cv2_error else code src.

(** [cv2.threshold(src, thresh, maxval, cv2.THRESH_BINARY)[1]]. *)
Definition threshold (src : gray) (thresh maxval : Z) : gray :=
  map (map (fun p => if (thresh <? p)%Z then maxval else 0%Z)) src.

Definition countNonZero (src : gray) : Z :=
  Z.of_nat (length (filter (fun p => p <> 0%Z) (concat src))).

(** [gray.size]. *)
Definition size_of {A} (a : list (list A)) : Z := Z.of_nat (length (concat a)).

(** [image[y:y+h, x:x+w]]. *)
Definition crop (img : image) (x y w h : Z) : image :=
  map (py_slice x (x + w)) (py_slice y (y + h) img).

(** ** [SkinAnalyzer.extract_skin_features] *)

Section Extractor.
Context {R : Rounding} {cv : Cv2} {np : Numpy}.
Local Open Scope py_scope.

(** [float(m) / c] for a non-zero literal [c]. *)
Definition fdivc (a c : Q) : Q := rnd (a / c).

(** [np.sqrt(grad_x**2 + grad_y**2)], element by element. *)
Definition gradient_magnitude (gx gy : fimage) : fimage :=
  zip_with (zip_with (fun a b => np_sqrt (fadd (fmul a a) (fmul b b)))) gx gy.

(** The body of the [try] block, lines 98 to 168. *)
Definition extract_body (img : image) (face_coords : Z * Z * Z * Z) : outcome (list Q) :=
  let '(x, y, w, h) := face_coords in
  let face_roi := crop img x y w h in
  hsv <- cvtColor BGR2HSV face_roi ;;
  lab <- cvtColor BGR2LAB face_roi ;;
  gry <- cvtColor BGR2GRAY face_roi ;;
  m_hsv <- cv2_mean hsv ;;
  hsv_m <- unpack3 (py_slice 0 3 m_hsv) ;;
  let '(h_mean, s_mean, v_mean) := hsv_m in
  hsv_s <- unpack3 (py_slice 0 3 (np_std_axis01 hsv)) ;;
  let '(h_std, s_std, v_std) := hsv_s in
  let h_mean := fdivc h_mean 179 in
  let s_mean := fdivc s_mean 255 in
  let v_mean := fdivc v_mean 255 in
  let h_std := fdivc h_std 90 in
  let s_std := fdivc s_std 128 in
  let v_std := fdivc v_std 128 in
  m_lab <- cv2_mean lab ;;
  lab_m <- unpack3 (py_slice 0 3 m_lab) ;;
  let '(l_mean, a_mean, b_mean) := lab_m in
  lab_s <- unpack3 (py_slice 0 3 (np_std_axis01 lab)) ;;
  let '(l_std, a_std, b_std) := lab_s in
  let l_mean := fdivc l_mean 255 in
  let a_mean := fdivc a_mean 255 in
  let b_mean := fdivc b_mean 255 in
  let l_std := fdivc l_std 128 in
  let a_std := fdivc a_std 128 in
  let b_std := fdivc b_std 128 in
  lap <- Laplacian gry ;;
  let lap_var_raw := np_var lap in
  let laplacian_var := py_min (fdivc lap_var_raw 1000) 1 in
  let contrast := py_min (fdivc (gray_std gry) 128) 1 in
  let brightness := fdivc (gray_mean gry) 255 in
  let thresh := threshold gry 127 255 in
  let dark_spots := countNonZero thresh in
  let total_pixels := size_of gry in
  dark_spot_ratio <- int_div dark_spots total_pixels ;;
  let bright_thresh := threshold gry 200 255 in
  let oily_areas := countNonZero bright_thresh in
  oily_ratio <- int_div oily_areas total_pixels ;;
  grad_x <- Sobel gry 1 0 ;;
  grad_y <- Sobel gry 0 1 ;;
  let texture_complexity :=
    py_min (fdivc (np_mean (gradient_magnitude grad_x grad_y)) 255) 1 in
  let features :=
    [ h_mean; s_mean; v_mean; h_std; s_std; v_std;
      l_mean; a_mean; b_mean; l_std; a_std; b_std;
      laplacian_var; contrast; brightness;
      dark_spot_ratio; oily_ratio; texture_complexity ] in
  Ret (map rnd32 features).

(** [np.zeros(18, dtype=np.float32)]. *)
Definition zeros18 : list Q := repeat 0%Q 18.

Definition extract_skin_features (img : image) (face_coords : Z * Z * Z * Z) : outcome (list Q) :=
  try_except (extract_body img face_coords) (fun _ => Ret zeros18).
End Extractor.

(** ** scikit-learn objects, files and the state of the program *)

(** The fitted attributes of a [StandardScaler]; an unfitted scaler has no
    [scale_] attribute and is [None] below. *)
Record scaler_stats : Type := { mean_ : list Q; scale_ : list Q }.
Definition StandardScaler : Type := option scaler_stats.

(** A fitted forest: what [fit] leaves in a [RandomForestClassifier]. *)
Record forest : Type := {
  n_features_in_ : nat;
  classes_ : list Z;
  proba_of : list Q -> list Q
}.

(** [RandomForestClassifier(n_estimators, max_depth, random_state=42,
    class_weight='balanced')], fitted or not. *)
Record RandomForestClassifier : Type := {
  n_estimators : Z;
  max_depth : Z;
  fitted : option forest
}.

Definition matrix : Type := list (list Q).

Class Sklearn : Type := {
  (** the 80/20 stratified shuffle with [random_state=42], once its
      arguments are accepted *)
  shuffle_split : matrix -> list Z -> outcome (matrix * matrix * list Z * list Z);
  scaler_fit : matrix -> outcome scaler_stats;
  forest_fit : Z -> Z -> matrix -> list Z -> outcome forest;
  accuracy_score : list Z -> list Z -> outcome Q
}.

(** numpy's legacy global generator: [gauss] is one standard normal draw. *)
Class NpRandom : Type := {
  rng : Type;
  seed : Z -> rng;
  gauss : rng -> Q * rng
}.

(** [str(e)]. *)
Class PyStr : Type := { str_exn : exn -> string }.

(** What an attribute or a pickle can hold: [None], a classifier, a
    scaler, or an object of another class, taken to have none of the
    attributes and methods used here ([scale_], [transform],
    [fit_transform], [predict], [predict_proba]).  Python does not check
    the class of what is assigned or loaded, so any of them can sit in any
    attribute. *)
Inductive pyobj : Type :=
| PyNone
| Forest (clf : RandomForestClassifier)
| Scaler (s : StandardScaler)
| Object.

(** What a path on disk holds: a pickle of an object, or something
    [joblib.load] cannot read. *)
Inductive file : Type :=
| FPickle (o : pyobj)
| FOther.

Record SkinAnalyzer : Type := {
  model_path : string;
  cond_model_path : string;
  scaler_path : string;
  cond_scaler_path : string;
  model : pyobj;
  cond_model : pyobj;
  scaler : pyobj;
  cond_scaler : pyobj;
  is_trained : bool;
  is_cond_trained : bool
}.

Definition set_model (v : pyobj) (a : SkinAnalyzer) : SkinAnalyzer :=
  {| model_path := model_path a; cond_model_path := cond_model_path a;
     scaler_path := scaler_path a; cond_scaler_path := cond_scaler_path a;
     model := v; cond_model := cond_model a;
     scaler := scaler a; cond_scaler := cond_scaler a;
     is_trained := is_trained a; is_cond_trained := is_cond_trained a |}.

Definition set_cond_model (v : pyobj) (a : SkinAnalyzer) : SkinAnalyzer :=
  {| model_path := model_path a; cond_model_path := cond_model_path a;
     scaler_path := scaler_path a; cond_scaler_path := cond_scaler_path a;
     model := model a; cond_model := v;
     scaler := scaler a; cond_scaler := cond_scaler a;
     is_trained := is_trained a; is_cond_trained := is_cond_trained a |}.

Definition set_scaler (v : pyobj) (a : SkinAnalyzer) : SkinAnalyzer :=
  {| model_path := model_path a; cond_model_path := cond_model_path a;
     scaler_path := scaler_path a; cond_scaler_path := cond_scaler_path a;
     model := model a; cond_model := cond_model a;
     scaler := v; cond_scaler := cond_scaler a;
     is_trained := is_trained a; is_cond_trained := is_cond_trained a |}.

Definition set_cond_scaler (v : pyobj) (a : SkinAnalyzer) : SkinAnalyzer :=
  {| model_path := model_path a; cond_model_path := cond_model_path a;
     scaler_path := scaler_path a; cond_scaler_path := cond_scaler_path a;
     model := model a; cond_model := cond_model a;
     scaler := scaler a; cond_scaler := v;
     is_trained := is_trained a; is_cond_trained := is_cond_trained a |}.

Definition set_is_trained (v : bool) (a : SkinAnalyzer) : SkinAnalyzer :=
  {| model_path := model_path a; cond_model_path := cond_model_path a;
     scaler_path := scaler_path a; cond_scaler_path := cond_scaler_path a;
     model := model a; cond_model := cond_model a;
     scaler := scaler a; cond_scaler := cond_scaler a;
     is_trained := v; is_cond_trained := is_cond_trained a |}.

Definition set_is_cond_trained (v : bool) (a : SkinAnalyzer) : SkinAnalyzer :=
  {| model_path := model_path a; cond_model_path := cond_model_path a;
     scaler_path := scaler_path a; cond_scaler_path := cond_scaler_path a;
     model := model a; cond_model := cond_model a;
     scaler := scaler a; cond_scaler := cond_scaler a;
     is_trained := is_trained a; is_cond_trained := v |}.

(** [self.skin_types], [self.skin_descriptions], [self.skin_conditions]. *)
Definition skin_types : gmap Z string :=
  list_to_map [ (0%Z, "Da khô"); (1%Z, "Da dầu"); (2%Z, "Da hỗn hợp"); (3%Z, "Da nhạy cảm") ]%string.

Definition skin_descriptions : gmap string string :=
  list_to_map
    [ ("Da khô", "Da thiếu độ ẩm, thường có cảm giác căng, bong tróc và dễ xuất hiện nếp nhăn");
      ("Da dầu", "Da tiết nhiều bã nhờn, thường bóng và dễ bị mụn trứng cá");
      ("Da hỗn hợp", "Da có vùng khô và vùng dầu, thường T-zone (trán, mũi, cằm) dầu hơn");
      ("Da nhạy cảm", "Da dễ bị kích ứng, đỏ, ngứa khi tiếp xúc với các thành phần mỹ phẩm") ]%string.

Definition skin_conditions : gmap Z string :=
  list_to_map [ (0%Z, "Bình thường"); (1%Z, "Mụn"); (2%Z, "Nám/tàn nhang"); (3%Z, "Lỗ chân lông to") ]%string.

(** Everything a method can read or change: the object, the files, and
    numpy's process-wide random state.  [unwritable] holds the paths that
    cannot be written (a missing directory, no permission); no method
    changes it. *)
Record World {npr : NpRandom} : Type := {
  self : SkinAnalyzer;
  disk : gmap string file;
  unwritable : gset string;
  np_random : rng
}.

Definition with_self {npr : NpRandom} (f : SkinAnalyzer -> SkinAnalyzer) (w : World) : World :=
  {| self := f (self w); disk := disk w; unwritable := unwritable w;
     np_random := np_random w |}.
Definition with_disk {npr : NpRandom} (f : gmap string file -> gmap string file) (w : World) : World :=
  {| self := self w; disk := f (disk w); unwritable := unwritable w;
     np_random := np_random w |}.
Definition with_np_random {npr : NpRandom} (g : rng) (w : World) : World :=
  {| self := self w; disk := disk w; unwritable := unwritable w; np_random := g |}.

(** ** [SkinAnalyzer.generate_synthetic_data] *)

Section Generator.
Context {R : Rounding} {npr : NpRandom}.
Local Open Scope m_scope.

(** A decimal literal is the float nearest to it. *)
Definition lit (q : Q) : Q := rnd q.

(** [np.random.seed(s)]. *)
Definition np_random_seed (s : Z) : M World unit := mmodify (with_np_random (seed s)).

(** [size] successive draws of [loc + scale * gauss], from state [g]. *)
Fixpoint normal_from (g : rng) (loc scale : Q) (size : nat) : list Q * rng :=
  match size with
  | O => ([], g)
  | S k =>
      let '(z, g1) := gauss g in
      let '(zs, g2) := normal_from g1 loc scale k in
      (fadd loc (fmul scale z) :: zs, g2)
  end.

(** [np.random.normal(loc, scale, size)]. *)
Definition np_random_normal (loc scale : Q) (size : nat) : M World (list Q) :=
  fun w => let '(v, g) := normal_from (np_random w) loc scale size in
           (Ret v, with_np_random g w).

(** Lines 187 to 198: the prototype and the noise scale of a skin type. *)
Definition base_of (skin_type : Z) : list Q * Q :=
  if (skin_type =? 0)%Z then
    (map lit [0.5; 0.3; 0.4; 0.1; 0.1; 0.1; 0.4; 0.0; 0.0; 0.1; 0.1; 0.1; 0.3; 0.2; 0.3; 0.4; 0.2; 0.3]%Q,
     lit 0.1)
  else if (skin_type =? 1)%Z then
    (map lit [0.5; 0.6; 0.7; 0.1; 0.1; 0.1; 0.6; 0.0; 0.0; 0.1; 0.1; 0.1; 0.7; 0.3; 0.5; 0.1; 0.6; 0.5]%Q,
     lit 0.1)
  else if (skin_type =? 2)%Z then
    (map lit [0.5; 0.4; 0.5; 0.1; 0.1; 0.1; 0.5; 0.0; 0.0; 0.1; 0.1; 0.1; 0.5; 0.25; 0.4; 0.25; 0.4; 0.4]%Q,
     lit 0.15)
  else
    (map lit [0.5; 0.3; 0.4; 0.15; 0.15; 0.15; 0.4; 0.0; 0.0; 0.15; 0.15; 0.15; 0.6; 0.4; 0.3; 0.3; 0.5; 0.5]%Q,
     lit 0.12).

(** [l[i] += d]; the index is in range at every use below. *)
Definition add_at (i : nat) (d : Q) (l : list Q) : list Q :=
  alter (fun v => fadd v d) i l.

(** Lines 200 to 205. *)
Definition adjust (skin_cond : Z) (base_features : list Q) : list Q :=
  if (skin_cond =? 1)%Z then add_at 15 (lit 0.2) base_features
  else if (skin_cond =? 2)%Z then add_at 13 (lit 0.2) base_features
  else if (skin_cond =? 3)%Z then add_at 17 (lit 0.2) base_features
  else base_features.

(** Lines 187 to 208: one sample. *)
Definition draw_sample (skin_type skin_cond : Z) : M World (list Q) :=
  let '(base_features, noise_scale) := base_of skin_type in
  let base_features := adjust skin_cond base_features in
  noise <- np_random_normal 0 noise_scale (length base_features) ;;
  let features := zip_with fadd base_features noise in
  let features := map (np_clip 0 1) features in
  mret features.

Definition dataset : Type := list (list Q) * list Z * list Z.

(** Lines 186 to 211: one turn of the innermost loop. *)
Definition append_sample (skin_type skin_cond : Z) (acc : dataset) : M World dataset :=
  let '(features_list, skin_type_labels, skin_cond_labels) := acc in
  features <- draw_sample skin_type skin_cond ;;
  mret (features_list ++ [features],
        skin_type_labels ++ [skin_type],
        skin_cond_labels ++ [skin_cond]).

Definition generate_body (n_samples : Z) : M World dataset :=
  np_random_seed 42 ;;;
  mfor (py_range 4) (fun acc skin_type =>
    let n_type_samples := (n_samples / 4)%Z in
    mfor (py_range 4) (fun acc skin_cond =>
      let n_cond_samples := (n_type_samples / 4)%Z in
      mfor (py_range n_cond_samples) (fun acc _ =>
        append_sample skin_type skin_cond acc) acc) acc) ([], [], []).

Definition generate_synthetic_data (n_samples : Z) : M World dataset :=
  mtry (generate_body n_samples) (fun _ => mret ([], [], [])).
End Generator.

(** ** Arrays with a shape, and scikit-learn's argument checks *)

Record ndarray : Type := { shape : list nat; data : list Q }.

(** [a.size]. *)
Definition nd_size (a : ndarray) : nat := foldr Nat.mul 1%nat (shape a).

(** [a.reshape(1, -1)]. *)
Definition reshape_1_m1 (a : ndarray) : ndarray :=
  {| shape := [1%nat; nd_size a]; data := data a |}.

(** The [r] rows of [c] entries of row-major data. *)
Definition rows_of (r c : nat) (d : list Q) : matrix :=
  map (fun i => take c (drop (i * c) d)) (seq 0 r).

(** [check_array]: a 2-D array with at least one sample and one feature. *)
Definition check_array (X : ndarray) : outcome matrix :=
  match shape X with
  | [r; c] =>
      if ((r =? 0) || (c =? 0))%nat then Raise ValueError
      else Ret (rows_of r c (data X))
  | _ => Raise ValueError
  end.

(** The feature-count check every fitted estimator applies. *)
Definition check_n_features (n : nat) (X : matrix) : outcome matrix :=
  match X with
  | [] => Raise ValueError
  | _ => if forallb (fun row => (length row =? n)%nat) X then Ret X else Raise ValueError
  end.

(** [np.argmax]: the first index holding the maximum. *)
Fixpoint argmax_from (best : Q) (ibest i : nat) (l : list Q) : nat :=
  match l with
  | [] => ibest
  | x :: l' => if Qgtb x best then argmax_from x i (S i) l' else argmax_from best ibest (S i) l'
  end.

Definition argmax (l : list Q) : nat :=
  match l with
  | [] => 0%nat
  | x :: l' => argmax_from x 0%nat 1%nat l'
  end.

(** [np.max] of a 1-D array. *)
Definition np_max (l : list Q) : outcome Q :=
  match l with
  | [] => Raise ValueError
  | x :: l' => Ret (fold_left np_maximum l' x)
  end.

Fixpoint omap_list {A B} (f : A -> outcome B) (l : list A) : outcome (list B) :=
  match l with
  | [] => Ret []
  | x :: l' => obind (f x) (fun y => obind (omap_list f l') (fun ys => Ret (y :: ys)))
  end.

Section Estimators.
Context {R : Rounding}.
Local Open Scope py_scope.

(** [(x - mean_) / scale_], feature by feature. *)
Definition standardize (s : scaler_stats) (row : list Q) : list Q :=
  zip_with (fun x ms => rnd (rnd (x - fst ms) / snd ms)) row (combine (mean_ s) (scale_ s)).

Definition transform_rows (s : scaler_stats) (X : matrix) : outcome matrix :=
  X <- check_n_features (length (mean_ s)) X ;;
  Ret (map (standardize s) X).

(** [scaler.transform(X)] on a fitted scaler. *)
Definition scaler_transform (s : scaler_stats) (X : ndarray) : outcome matrix :=
  X <- check_array X ;;
  transform_rows s X.

(** [clf.predict_proba(X)]. *)
Definition predict_proba (clf : RandomForestClassifier) (X : matrix) : outcome (list (list Q)) :=
  match fitted clf with
  | None => Raise NotFittedError
  | Some f =>
      X <- check_n_features (n_features_in_ f) X ;;
      Ret (map (proba_of f) X)
  end.

(** [clf.predict(X)]: [classes_.take(argmax(proba))]. *)
Definition predict (clf : RandomForestClassifier) (X : matrix) : outcome (list Z) :=
  match fitted clf with
  | None => Raise NotFittedError
  | Some f =>
      proba <- predict_proba clf X ;;
      omap_list (fun p => py_index (classes_ f) (Z.of_nat (argmax p))) proba
  end.
End Estimators.

(** ** Attribute tests and method calls on whatever an attribute holds *)

(** [o is None]. *)
Definition is_none (o : pyobj) : bool :=
  match o with
  | PyNone => true
  | _ => false
  end.

(** [hasattr(o, 'scale_')]: only a fitted scaler has the attribute. *)
Definition hasattr_scale_ (o : pyobj) : bool :=
  match o with
  | Scaler (Some _) => true
  | _ => false
  end.

Section Methods.
Context {R : Rounding}.

(** [o.transform(X)]: an object without the method raises
    [AttributeError], an unfitted scaler [NotFittedError]. *)
Definition obj_transform (o : pyobj) (X : ndarray) : outcome matrix :=
  match o with
  | Scaler (Some st) => scaler_transform st X
  | Scaler None => Raise NotFittedError
  | _ => Raise AttributeError
  end.

(** [o.predict(X)] and [o.predict_proba(X)]. *)
Definition obj_predict (o : pyobj) (X : matrix) : outcome (list Z) :=
  match o with
  | Forest clf => predict clf X
  | _ => Raise AttributeError
  end.

Definition obj_predict_proba (o : pyobj) (X : matrix) : outcome (list (list Q)) :=
  match o with
  | Forest clf => predict_proba clf X
  | _ => Raise AttributeError
  end.
End Methods.

(** [train_test_split(features, labels, test_size=0.2, random_state=42,
    stratify=labels)]: a class with a single member is refused. *)
Definition train_test_split {sk : Sklearn} (features : matrix) (labels : list Z)
  : outcome (matrix * matrix * list Z * list Z) :=
  if existsb (fun c => (length (filter (fun c' => c' = c) labels) <? 2)%nat) labels
  then Raise ValueError
  else shuffle_split features labels.

(** ** [predict_skin_type] and [predict_skin_condition] *)

(** The dict a predictor returns: [{'error': msg}] or the payload. *)
Inductive result (P : Type) : Type :=
| Error (msg : string)
| Success (p : P).
Arguments Error {P} msg.
Arguments Success {P} p.

Record type_prediction : Type := {
  skin_type : string;
  skin_type_code : Z;
  confidence : Q;
  all_probabilities : gmap string Q;
  description : string
}.

Record cond_prediction : Type := {
  skin_condition : string;
  cond_confidence : Q;
  cond_all_probabilities : gmap string Q
}.

(** [{names[i]: float(p) for i, p in enumerate(probabilities)}]. *)
Definition proba_dict (names : gmap Z string) (probabilities : list Q) : outcome (gmap string Q) :=
  ofor (enumerate probabilities)
       (fun d ip => obind (dict_get names (fst ip)) (fun k => Ret (<[k := snd ip]> d)))
       ∅.

Section Predictors.
Context {R : Rounding} {ps : PyStr}.
Local Open Scope py_scope.

Definition predict_skin_type (a : SkinAnalyzer) (features : ndarray) : outcome (result type_prediction) :=
  try_except
    (if negb (is_trained a) || is_none (model a)
     then Ret (Error "Model chưa được huấn luyện")
     else if negb (hasattr_scale_ (scaler a))
     then Ret (Error "Bộ chuẩn hóa (scaler) chưa được huấn luyện")
     else
       features_scaled <- obj_transform (scaler a) (reshape_1_m1 features) ;;
       predictions <- obj_predict (model a) features_scaled ;;
       prediction <- py_index predictions 0 ;;
       probas <- obj_predict_proba (model a) features_scaled ;;
       probabilities <- py_index probas 0 ;;
       skin_type <- dict_get skin_types prediction ;;
       confidence <- py_index probabilities prediction ;;
       all_probabilities <- proba_dict skin_types probabilities ;;
       description <- dict_get skin_descriptions skin_type ;;
       Ret (Success {| skin_type := skin_type;
                       skin_type_code := prediction;
                       confidence := confidence;
                       all_probabilities := all_probabilities;
                       description := description |}))
    (fun e => Ret (Error (str_exn e))).

Definition predict_skin_condition (a : SkinAnalyzer) (features : ndarray) : outcome (result cond_prediction) :=
  try_except
    (if negb (is_cond_trained a) || is_none (cond_model a)
     then Ret (Error "Model tình trạng da chưa được huấn luyện")
     else if negb (hasattr_scale_ (cond_scaler a))
     then Ret (Error "Bộ chuẩn hóa (scaler) cho tình trạng da chưa được huấn luyện")
     else
       features_scaled <- obj_transform (cond_scaler a) features ;;
       preds <- obj_predict (cond_model a) features_scaled ;;
       pred <- py_index preds 0 ;;
       probas <- obj_predict_proba (cond_model a) features_scaled ;;
       proba <- py_index probas 0 ;;
       confidence <- np_max proba ;;
       all_probabilities <- proba_dict skin_conditions proba ;;
       Ret (Success {| skin_condition := default "Không xác định"%string (skin_conditions !! pred);
                       cond_confidence := confidence;
                       cond_all_probabilities := all_probabilities |}))
    (fun e => Ret (Error (str_exn e))).
End Predictors.

(** ** Training, loading, and [auto_train] *)

Section Training.
Context {R : Rounding} {npr : NpRandom} {sk : Sklearn}.
Local Open Scope m_scope.

(** [joblib.dump(obj, path)]: a path that cannot be written raises and
    leaves the disk as it was. *)
Definition joblib_dump (obj : pyobj) (path : string) : M World unit :=
  fun w => if bool_decide (path ∈ unwritable w) then (Raise OSError, w)
           else (Ret tt, with_disk (fun d => <[path := FPickle obj]> d) w).

(** [joblib.load(path)] returns whatever object the pickle holds. *)
Definition joblib_load (path : string) : M World pyobj :=
  fun w => match disk w !! path with
           | None => (Raise FileNotFoundError, w)
           | Some (FPickle o) => (Ret o, w)
           | Some FOther => (Raise UnpicklingError, w)
           end.

(** [os.path.exists(path)]. *)
Definition path_exists (path : string) : M World bool :=
  fun w => (Ret (bool_decide (is_Some (disk w !! path))), w).

(** [o.fit_transform(X)] on the object [o] that [store] writes back, the
    scaler being fitted in place: [fit] first drops the old statistics,
    then checks and fits, then transforms.  An object that is no scaler
    has no such method. *)
Definition fit_transform (o : pyobj) (store : pyobj -> SkinAnalyzer -> SkinAnalyzer) (X : matrix)
  : M World matrix :=
  match o with
  | Scaler _ =>
      mmodify (with_self (store (Scaler None))) ;;;
      st <- mlift (scaler_fit X) ;;
      mmodify (with_self (store (Scaler (Some st)))) ;;;
      mlift (transform_rows st X)
  | _ => mraise AttributeError
  end.

(** [o.transform(X)] on an array that is already 2-D. *)
Definition transform_with (o : pyobj) (X : matrix) : M World matrix :=
  match o with
  | Scaler (Some st) => mlift (transform_rows st X)
  | Scaler None => mraise NotFittedError
  | _ => mraise AttributeError
  end.

(** [clf.fit(X, y)] on the classifier stored by [store]. *)
Definition fit_stored (store : pyobj -> SkinAnalyzer -> SkinAnalyzer)
  (clf : RandomForestClassifier) (X : matrix) (y : list Z) : M World RandomForestClassifier :=
  f <- mlift (forest_fit (n_estimators clf) (max_depth clf) X y) ;;
  let clf' := {| n_estimators := n_estimators clf; max_depth := max_depth clf; fitted := Some f |} in
  mmodify (with_self (store (Forest clf'))) ;;;
  mret clf'.

Definition train_model (features : matrix) (labels : list Z) : M World Q :=
  mtry
    (sp <- mlift (train_test_split features labels) ;;
     let '(X_train, X_test, y_train, y_test) := sp in
     w <- mget ;;
     X_train_scaled <- fit_transform (scaler (self w)) set_scaler X_train ;;
     w <- mget ;;
     X_test_scaled <- transform_with (scaler (self w)) X_test ;;
     let clf := {| n_estimators := 40; max_depth := 7; fitted := None |} in
     mmodify (with_self (set_model (Forest clf))) ;;;
     clf <- fit_stored set_model clf X_train_scaled y_train ;;
     y_pred <- mlift (predict clf X_test_scaled) ;;
     accuracy <- mlift (accuracy_score y_test y_pred) ;;
     w <- mget ;;
     joblib_dump (model (self w)) (model_path (self w)) ;;;
     joblib_dump (scaler (self w)) (scaler_path (self w)) ;;;
     mmodify (with_self (set_is_trained true)) ;;;
     mret accuracy)
    (fun _ => mret 0%Q).

Definition train_condition_model (features : matrix) (cond_labels : list Z) : M World Q :=
  mtry
    (sp <- mlift (train_test_split features cond_labels) ;;
     let '(X_train, X_test, y_train, y_test) := sp in
     w <- mget ;;
     X_train_scaled <- fit_transform (cond_scaler (self w)) set_cond_scaler X_train ;;
     w <- mget ;;
     X_test_scaled <- transform_with (cond_scaler (self w)) X_test ;;
     let clf := {| n_estimators := 50; max_depth := 8; fitted := None |} in
     mmodify (with_self (set_cond_model (Forest clf))) ;;;
     clf <- fit_stored set_cond_model clf X_train_scaled y_train ;;
     y_pred <- mlift (predict clf X_test_scaled) ;;
     acc <- mlift (accuracy_score y_test y_pred) ;;
     w <- mget ;;
     joblib_dump (cond_model (self w)) (cond_model_path (self w)) ;;;
     joblib_dump (cond_scaler (self w)) (cond_scaler_path (self w)) ;;;
     mmodify (with_self (set_is_cond_trained true)) ;;;
     mret acc)
    (fun _ => mret 0%Q).

Definition auto_train : M World bool :=
  mtry
    (ds <- generate_synthetic_data 1000 ;;
     let '(features, labels, cond_labels) := ds in
     if (length features =? 0)%nat then mret false
     else
       accuracy_type <- train_model features labels ;;
       accuracy_cond <- train_condition_model features cond_labels ;;
       let ok := Qgtb accuracy_type (lit 0.6) && Qgtb accuracy_cond (lit 0.6) in
       mret ok)
    (fun _ => mret false).

Definition _load_model : M World unit :=
  mtry
    (w <- mget ;;
     model_exists <- path_exists (model_path (self w)) ;;
     scaler_exists <- path_exists (scaler_path (self w)) ;;
     if model_exists && scaler_exists then
       m <- joblib_load (model_path (self w)) ;;
       mmodify (with_self (set_model m)) ;;;
       s <- joblib_load (scaler_path (self w)) ;;
       mmodify (with_self (set_scaler s)) ;;;
       mmodify (with_self (set_is_trained true))
     else if model_exists && negb scaler_exists then
       mmodify (with_self (set_is_trained false))
     else mret tt)
    (fun _ => mret tt).

Definition _load_cond_model : M World unit :=
  mtry
    (w <- mget ;;
     cond_model_exists <- path_exists (cond_model_path (self w)) ;;
     cond_scaler_exists <- path_exists (cond_scaler_path (self w)) ;;
     if cond_model_exists && cond_scaler_exists then
       m <- joblib_load (cond_model_path (self w)) ;;
       mmodify (with_self (set_cond_model m)) ;;;
       s <- joblib_load (cond_scaler_path (self w)) ;;
       mmodify (with_self (set_cond_scaler s)) ;;;
       mmodify (with_self (set_is_cond_trained true))
     else if cond_model_exists && negb cond_scaler_exists then
       mmodify (with_self (set_is_cond_trained false))
     else mret tt)
    (fun _ => mret tt).

(** [SkinAnalyzer(model_path, cond_model_path)]: the new object replaces
    [self]. *)
Definition __init__ (model_path cond_model_path : string) : M World unit :=
  mmodify (with_self (fun _ =>
    {| model_path := model_path; cond_model_path := cond_model_path;
       scaler_path := "skin_type_scaler.pkl"; cond_scaler_path := "skin_condition_scaler.pkl";
       model := PyNone; cond_model := PyNone;
       scaler := Scaler None; cond_scaler := Scaler None;
       is_trained := false; is_cond_trained := false |})) ;;;
  _load_model ;;;
  _load_cond_model.
End Training.

(** ** A concrete instance of the interfaces

    Small stand-ins for the libraries, on which the model can be run:
    exact arithmetic, a linear congruential generator, a one-rule
    classifier.  They are used for examples only. *)

Module Toy.

#[export] Instance rounding : Rounding :=
  {| rnd := fun q => q; rnd32 := fun q => q;
     rnd_mono := fun a b H => H; rnd32_mono := fun a b H => H |}.

Definition to_gray (src : image) : gray :=
  map (map (fun px : pixel => match px with
                              | [b; g; r] => ((b + g + r) / 3)%Z
                              | _ => 0%Z
                              end)) src.

Definition channel_sums (src : image) : list Q :=
  match concat src with
  | [] => [0; 0; 0; 0]%Q
  | px :: _ => map inject_Z px ++ [0%Q]
  end.

#[export] Instance cv : Cv2 :=
  {| BGR2HSV := fun src => Ret src;
     BGR2LAB := fun src => Ret src;
     BGR2GRAY := fun src => Ret (to_gray src);
     cv2_mean := fun src => Ret (channel_sums src);
     Laplacian := fun g => Ret (map (map inject_Z) g);
     Sobel := fun g _ _ => Ret (map (map inject_Z) g) |}.

#[export] Instance np : Numpy :=
  {| np_std_axis01 := fun src => firstn 3 (channel_sums src);
     np_var := fun _ => 500%Q;
     np_mean := fun _ => 100%Q;
     np_sqrt := fun q => q;
     gray_std := fun _ => 64%Q;
     gray_mean := fun _ => 128%Q |}.

(** A linear congruential generator; a draw is a multiple of 1/10 in
    [-0.3, 0.3]. *)
#[export] Instance npr : NpRandom :=
  {| rng := Z;
     seed := fun s => s;
     gauss := fun g => ((inject_Z (g mod 7 - 3) / 10)%Q, ((g * 1103515245 + 12345) mod 2147483648)%Z) |}.

#[export] Instance ps : PyStr :=
  {| str_exn := fun e => match e with
                         | ValueError => "ValueError"
                         | KeyError => "KeyError"
                         | IndexError => "IndexError"
                         | _ => "Exception"
                         end%string |}.

(** Two class distributions, chosen by the sign of the first feature. *)
Definition one_rule : forest :=
  {| n_features_in_ := 18;
     classes_ := [0; 1; 2; 3]%Z;
     proba_of := fun row => match row with
                            | x :: _ => if Qle_bool x 0 then [0.7; 0.1; 0.1; 0.1]%Q
                                        else [0.1; 0.6; 0.2; 0.1]%Q
                            | [] => [0.25; 0.25; 0.25; 0.25]%Q
                            end |}.

Definition count_equal (a b : list Z) : nat :=
  length (filter (fun p => fst p = snd p) (combine a b)).

#[export] Instance sk : Sklearn :=
  {| shuffle_split := fun X y => Ret (X, X, y, y);
     scaler_fit := fun X => Ret {| mean_ := repeat 0%Q 18; scale_ := repeat 1%Q 18 |};
     forest_fit := fun _ _ _ _ => Ret one_rule;
     accuracy_score := fun y p =>
       if (length y =? 0)%nat then Raise ValueError
       else Ret (inject_Z (Z.of_nat (count_equal y p)) / inject_Z (Z.of_nat (length y)))%Q |}.

Definition fresh : SkinAnalyzer :=
  {| model_path := "skin_type_model.pkl"; cond_model_path := "skin_condition_model.pkl";
     scaler_path := "skin_type_scaler.pkl"; cond_scaler_path := "skin_condition_scaler.pkl";
     model := PyNone; cond_model := PyNone;
     scaler := Scaler None; cond_scaler := Scaler None;
     is_trained := false; is_cond_trained := false |}.

Definition unit_scaler : scaler_stats := {| mean_ := repeat 0%Q 18; scale_ := repeat 1%Q 18 |}.
Definition one_rule_clf (n d : Z) : RandomForestClassifier :=
  {| n_estimators := n; max_depth := d; fitted := Some one_rule |}.

(** An analyzer with both models and both scalers in place. *)
Definition ready : SkinAnalyzer :=
  {| model_path := "skin_type_model.pkl"; cond_model_path := "skin_condition_model.pkl";
     scaler_path := "skin_type_scaler.pkl"; cond_scaler_path := "skin_condition_scaler.pkl";
     model := Forest (one_rule_clf 40 7); cond_model := Forest (one_rule_clf 50 8);
     scaler := Scaler (Some unit_scaler); cond_scaler := Scaler (Some unit_scaler);
     is_trained := true; is_cond_trained := true |}.

(** A world in which every path can be written. *)
Definition world (a : SkinAnalyzer) (d : gmap string file) (g : rng) : World :=
  {| self := a; disk := d; unwritable := ∅; np_random := g |}.

Definition features18 : list Q :=
  [0.5; 0.3; 0.4; 0.1; 0.1; 0.1; 0.4; 0.0; 0.0; 0.1; 0.1; 0.1; 0.3; 0.2; 0.3; 0.4; 0.2; 0.3]%Q.
Definition row18 : ndarray := {| shape := [1%nat; 18%nat]; data := features18 |}.

(** A 2 x 2 BGR image. *)
Definition img22 : image :=
  [ [ [10; 20; 30]; [250; 250; 250] ];
    [ [130; 140; 150]; [0; 0; 0] ] ]%Z.

End Toy.

(** ** Vocabulary of the statements *)

Section Vocabulary.
Context {R : Rounding} {npr : NpRandom}.

(** The four codes of a label space. *)
Definition label (z : Z) : Prop := z = 0%Z \/ z = 1%Z \/ z = 2%Z \/ z = 3%Z.

(** The noise standard deviation of a skin type: dry, oily, combination,
    sensitive. *)
Definition noise_sd (skin_type : Z) : Q :=
  match skin_type with
  | 0%Z => lit 0.1
  | 1%Z => lit 0.1
  | 2%Z => lit 0.15
  | _ => lit 0.12
  end.

(** The dimension a skin condition raises: acne the dark-spot ratio,
    pigmentation the contrast, enlarged pores the texture complexity. *)
Definition condition_dimension (skin_cond : Z) : option nat :=
  match skin_cond with
  | 1%Z => Some 15%nat
  | 2%Z => Some 13%nat
  | 3%Z => Some 17%nat
  | _ => None
  end.

(** The prototype of the skin type with 0.2 added on the dimension of the
    condition. *)
Definition perturbed_prototype (skin_type skin_cond : Z) : list Q :=
  let prototype := fst (base_of skin_type) in
  match condition_dimension skin_cond with
  | Some d => alter (fun v => fadd v (lit 0.2)) d prototype
  | None => prototype
  end.

(** Perturbed prototype plus noise, clamped to [0, 1]. *)
Definition spec_sample (skin_type skin_cond : Z) (noise : list Q) : list Q :=
  map (np_clip 0 1) (zip_with fadd (perturbed_prototype skin_type skin_cond) noise).

(** How many samples of a dataset carry the labels [(skin_type, skin_cond)]. *)
Definition stratum_count (ds : dataset) (skin_type skin_cond : Z) : nat :=
  length (filter (fun p => p = (skin_type, skin_cond)) (zip (snd (fst ds)) (snd ds))).

Definition ds_app (a b : dataset) : dataset :=
  (fst (fst a) ++ fst (fst b), snd (fst a) ++ snd (fst b), snd a ++ snd b).

Definition sample_ok (row : list Q) (t c : Z) : Prop :=
  label t /\ label c /\
  exists g, row = spec_sample t c (fst (normal_from g 0 (noise_sd t) 18)).

(** The samples of one stratum: [k] rows, all labelled [(t, c)]. *)
Definition block (t c : Z) (k : nat) (b : dataset) : Prop :=
  snd (fst b) = replicate k t /\ snd b = replicate k c /\
  Forall3 sample_ok (fst (fst b)) (snd (fst b)) (snd b).

Definition well_formed (ds : dataset) : Prop :=
  Forall3 sample_ok (fst (fst ds)) (snd (fst ds)) (snd ds).

(** Two worlds that differ at most in the random state. *)
Definition same_object (w w' : World) : Prop :=
  self w' = self w /\ disk w' = disk w /\ unwritable w' = unwritable w.
End Vocabulary.

(** The sixteen strata in the order the loops visit them. *)
Definition strata : list (Z * Z) :=
  [ (0, 0); (0, 1); (0, 2); (0, 3); (1, 0); (1, 1); (1, 2); (1, 3);
    (2, 0); (2, 1); (2, 2); (2, 3); (3, 0); (3, 1); (3, 2); (3, 3) ]%Z.

Definition Qsum (l : list Q) : Q := foldr Qplus 0%Q l.

(** The sum of the values of a dict. *)
Definition dict_sum (d : gmap string Q) : Q := Qsum (snd <$> map_to_list d).

Definition tolerance : Q := (1 # 1000000)%Q.

(** A forest fitted on 18 features and the four classes, whose class
    probabilities add up to one within the tolerance: what scikit-learn
    returns for such training data. *)
Definition forest_ok (f : forest) : Prop :=
  n_features_in_ f = 18%nat /\ classes_ f = [0; 1; 2; 3]%Z /\
  forall row, length (proba_of f row) = 4%nat /\
              (Qabs (Qsum (proba_of f row) - 1) <= tolerance)%Q.

Definition scaler_ok (s : scaler_stats) : Prop :=
  length (mean_ s) = 18%nat /\ length (scale_ s) = 18%nat.

(** A trained skin-type side: flag set, fitted classifier, fitted scaler. *)
Definition type_ready (a : SkinAnalyzer) : Prop :=
  is_trained a = true /\
  exists clf f sc, model a = Forest clf /\ fitted clf = Some f /\ forest_ok f /\
                   scaler a = Scaler (Some sc) /\ scaler_ok sc.

Definition cond_ready (a : SkinAnalyzer) : Prop :=
  is_cond_trained a = true /\
  exists clf f sc, cond_model a = Forest clf /\ fitted clf = Some f /\ forest_ok f /\
                   cond_scaler a = Scaler (Some sc) /\ scaler_ok sc.

(** Four probabilities adding up to one, and the confidence the mass of
    the predicted class, which no class exceeds. *)
Definition good_type_prediction (p : type_prediction) : Prop :=
  size (all_probabilities p) = 4%nat /\
  (Qabs (dict_sum (all_probabilities p) - 1) <= tolerance)%Q /\
  skin_types !! skin_type_code p = Some (skin_type p) /\
  all_probabilities p !! skin_type p = Some (confidence p) /\
  forall k v, all_probabilities p !! k = Some v -> (v <= confidence p)%Q.

Definition good_cond_prediction (p : cond_prediction) : Prop :=
  size (cond_all_probabilities p) = 4%nat /\
  (Qabs (dict_sum (cond_all_probabilities p) - 1) <= tolerance)%Q /\
  (exists v, cond_all_probabilities p !! skin_condition p = Some v /\ (cond_confidence p == v)%Q) /\
  forall k v, cond_all_probabilities p !! k = Some v -> (v <= cond_confidence p)%Q.

(** ** Runs of the model on the concrete instance *)

Module Examples.
Import Toy.

Definition w0 : World := world fresh ∅ (seed 0).

(** The features of the 2 x 2 image, the whole image being the face. *)
Definition v22 : list Q :=
  Eval vm_compute in
    match extract_body img22 (0, 0, 2, 2)%Z with
    | Ret v => v
    | Raise _ => []
    end.

(** [generate_synthetic_data(16)]: one sample per stratum. *)
Definition X16 : list (list Q) :=
  Eval vm_compute in
    match fst (generate_synthetic_data 16 w0) with
    | Ret ds => fst (fst ds)
    | Raise _ => []
    end.

Definition yt16 : list Z :=
  Eval vm_compute in
    match fst (generate_synthetic_data 16 w0) with
    | Ret ds => snd (fst ds)
    | Raise _ => []
    end.

Definition yc16 : list Z :=
  Eval vm_compute in
    match fst (generate_synthetic_data 16 w0) with
    | Ret ds => snd ds
    | Raise _ => []
    end.

(** A disk with a model file whose scaler file is unreadable. *)
Definition half_disk : gmap string file :=
  <["skin_type_model.pkl"%string := FPickle (Forest (one_rule_clf 40 7))]>
    (<["skin_type_scaler.pkl"%string := FOther]> ∅).

(** The analyzer constructed over [half_disk]. *)
Definition half_loaded : SkinAnalyzer :=
  self (snd (__init__ "skin_type_model.pkl" "skin_condition_model.pkl"
                      (world fresh half_disk (seed 0)))).

End Examples.


(** ** [SkinAnalyzer.get_skin_care_tips] *)

Definition skin_care_tips : gmap string (list string) :=
  list_to_map
    [ ("Da khô",
       [ "Sử dụng kem dưỡng ẩm đặc biệt cho da khô";
         "Tránh rửa mặt quá nhiều lần trong ngày";
         "Sử dụng sản phẩm có chứa Hyaluronic Acid";
         "Đắp mặt nạ dưỡng ẩm 2-3 lần/tuần";
         "Tránh sử dụng sản phẩm có cồn" ]);
      ("Da dầu",
       [ "Sử dụng sữa rửa mặt dịu nhẹ, không gây khô";
         "Sử dụng kem dưỡng ẩm không gây nhờn";
         "Tránh sử dụng sản phẩm có dầu";
         "Sử dụng sản phẩm có chứa Salicylic Acid";
         "Đắp mặt nạ đất sét 1-2 lần/tuần" ]);
      ("Da hỗn hợp",
       [ "Sử dụng sản phẩm phù hợp cho từng vùng da";
         "T-zone: sản phẩm kiểm soát dầu";
         "Vùng má: sản phẩm dưỡng ẩm";
         "Sử dụng kem dưỡng ẩm nhẹ";
         "Đắp mặt nạ theo vùng da" ]);
      ("Da nhạy cảm",
       [ "Sử dụng sản phẩm không gây kích ứng";
         "Tránh sản phẩm có hương liệu";
         "Test sản phẩm trước khi sử dụng";
         "Sử dụng kem chống nắng vật lý";
         "Tránh tẩy tế bào chết mạnh" ]) ]%string.

Definition get_skin_care_tips (skin_type : string) : list string :=
  default ["Không có lời khuyên cụ thể cho loại da này"%string] (skin_care_tips !! skin_type).

(** ** The analysis of one face in [main_app.py], lines 453 to 455 *)

(** A 1-D array holding [v]. *)
Definition as_array (v : list Q) : ndarray := {| shape := [length v]; data := v |}.

Section FaceAnalysis.
Context {R : Rounding} {cv : Cv2} {np : Numpy} {ps : PyStr}.
Local Open Scope py_scope.

Definition analyze_skin (a : SkinAnalyzer) (image_array : image) (face_coords : Z * Z * Z * Z)
  : outcome (result type_prediction * result cond_prediction) :=
  skin_features <- extract_skin_features image_array face_coords ;;
  skin_prediction <- predict_skin_type a (reshape_1_m1 (as_array skin_features)) ;;
  skin_condition_pred <- predict_skin_condition a (reshape_1_m1 (as_array skin_features)) ;;
  Ret (skin_prediction, skin_condition_pred).
End FaceAnalysis.

(** ** [test_skin_analyzer] of [demo.py] *)

(** [a, b = t]. *)
Definition unpack2 {A} (t : list A) : outcome (A * A) :=
  match t with
  | [a; b] => Ret (a, b)
  | _ => Raise ValueError
  end.

(** The arrays a method returns in a tuple. *)
Inductive pyarray : Type :=
| Features (X : list (list Q))
| Labels (y : list Z).

(** The tuple [generate_synthetic_data] returns. *)
Definition as_tuple (ds : dataset) : list pyarray :=
  [Features (fst (fst ds)); Labels (snd (fst ds)); Labels (snd ds)].

(** [features[0:1]] as a 2-D array. *)
Definition first_rows (features : list (list Q)) : ndarray :=
  let rows := py_slice 0 1 features in
  {| shape := [length rows; match features with row :: _ => length row | [] => 0%nat end];
     data := concat rows |}.

Section Demo.
Context {R : Rounding} {npr : NpRandom} {sk : Sklearn} {ps : PyStr}.
Local Open Scope m_scope.

(** Lines 87 to 132; [importable] tells whether [from skin_analyzer import
    SkinAnalyzer] succeeds.  Both handlers return [False]. *)
Definition test_skin_analyzer (importable : bool) : M World bool :=
  mtry
    (if importable then
       __init__ "skin_type_model.pkl" "skin_condition_model.pkl" ;;;
       ds <- generate_synthetic_data 100 ;;
       fl <- mlift (unpack2 (as_tuple ds)) ;;
       match fl with
       | (Features features, Labels labels) =>
           if (length features =? 0)%nat then mret false
           else
             accuracy <- train_model features labels ;;
             w <- mget ;;
             prediction <- mlift (predict_skin_type (self w) (first_rows features)) ;;
             mret true
       | _ => mraise TypeError
       end
     else mraise TypeError)
    (fun _ => mret false).
End Demo.


(** ** Password hashing in [main_app.py], lines 207 to 220 *)

(** [hashlib.pbkdf2_hmac('sha256', password, salt, iterations)]. *)
Class Hashlib : Type := {
  pbkdf2_hmac_sha256 : list Byte.byte -> list Byte.byte -> Z -> list Byte.byte
}.

(** The lower-case hexadecimal digit of a value below 16. *)
Definition hex_digit (n : N) : Ascii.ascii :=
  if (n <? 10)%N then Ascii.ascii_of_N (48 + n) else Ascii.ascii_of_N (87 + n).

(** The value of a hexadecimal digit, in either case. *)
Definition hex_value (c : Ascii.ascii) : option N :=
  let n := Ascii.N_of_ascii c in
  if ((48 <=? n) && (n <=? 57))%N then Some (n - 48)%N
  else if ((97 <=? n) && (n <=? 102))%N then Some (n - 87)%N
  else if ((65 <=? n) && (n <=? 70))%N then Some (n - 55)%N
  else None.

(** [binascii.hexlify(data).decode('ascii')]. *)
Fixpoint hexlify (data : list Byte.byte) : string :=
  match data with
  | [] => EmptyString
  | b :: data' =>
      let n := Byte.to_N b in
      String (hex_digit (n / 16)) (String (hex_digit (n mod 16)) (hexlify data'))
  end.

Definition byte_of_N (n : N) : Byte.byte :=
  match Byte.of_N n with
  | Some b => b
  | None => Byte.x00
  end.

(** [binascii.unhexlify]: an odd length or a character that is no
    hexadecimal digit raises [binascii.Error], a [ValueError]. *)
Fixpoint unhexlify (s : string) : outcome (list Byte.byte) :=
  match s with
  | EmptyString => Ret []
  | String _ EmptyString => Raise ValueError
  | String c1 (String c2 s') =>
      match hex_value c1, hex_value c2 with
      | Some h, Some l => obind (unhexlify s') (fun bs => Ret (byte_of_N (16 * h + l) :: bs))
      | _, _ => Raise ValueError
      end
  end.

(** [s.encode('ascii')]: a character outside ASCII raises
    [UnicodeEncodeError], a [ValueError]. *)
Definition encode_ascii (s : string) : outcome string :=
  if forallb (fun c => (Ascii.N_of_ascii c <? 128)%N) (list_ascii_of_string s)
  then Ret s else Raise ValueError.

Section Passwords.
Context {H : Hashlib}.
Local Open Scope py_scope.

(** [urandom16] is what [os.urandom(16)] returns when no salt is given. *)
Definition _hash_password (password : string) (salt : option (list Byte.byte))
  (urandom16 : list Byte.byte) : string * string :=
  let salt := match salt with
              | None => urandom16
              | Some s => s
              end in
  let dk := pbkdf2_hmac_sha256 (list_byte_of_string password) salt 100000 in
  (hexlify salt, hexlify dk).

Definition _verify_password (password salt_hex hash_hex : string) (urandom16 : list Byte.byte)
  : outcome bool :=
  try_except
    (salt_bytes <- encode_ascii salt_hex ;;
     salt <- unhexlify salt_bytes ;;
     let '(_, computed_hash_hex) := _hash_password password (Some salt) urandom16 in
     Ret (String.eqb computed_hash_hex hash_hex))
    (fun _ => Ret false).
End Passwords.


(** ** The recommendation rules of [product_recommender.py] *)

(** [self.recommendation_rules], lines 58 to 79. *)
Definition skin_concerns_rules : gmap string (list string) :=
  list_to_map
    [ ("mụn", ["cleanser"; "serum"]);
      ("vết thâm", ["serum"; "moisturizer"]);
      ("da khô", ["cleanser"; "moisturizer"; "serum"]);
      ("da dầu", ["cleanser"; "serum"; "moisturizer"]);
      ("lỗ chân lông to", ["cleanser"; "serum"]);
      ("da nhạy cảm", ["cleanser"; "moisturizer"]);
      ("nếp nhăn", ["serum"; "moisturizer"]) ]%string.

Definition age_groups_rules : gmap string (list string) :=
  list_to_map
    [ ("18-25", ["cleanser"; "moisturizer"; "sunscreen"]);
      ("26-35", ["cleanser"; "serum"; "moisturizer"; "sunscreen"]);
      ("36-45", ["cleanser"; "serum"; "moisturizer"; "sunscreen"]);
      ("45+", ["cleanser"; "serum"; "moisturizer"; "sunscreen"]) ]%string.

Definition budget_levels_rules : gmap string (list string) :=
  list_to_map
    [ ("thấp", ["cleanser"; "moisturizer"]);
      ("trung bình", ["cleanser"; "serum"; "moisturizer"]);
      ("cao", ["cleanser"; "serum"; "moisturizer"; "sunscreen"]) ]%string.

(** [x in l] on a list of strings. *)
Definition str_in (x : string) (l : list string) : bool := existsb (String.eqb x) l.

(** The loop of lines 170 to 174, body first: first occurrences, in
    order. *)
Definition add_unique (unique_categories : list string) (cat : string) : list string :=
  if str_in cat unique_categories then unique_categories else unique_categories ++ [cat].

Definition unique_in_order (l : list string) : list string := fold_left add_unique l [].

(** The truth value of an optional string and of an optional list. *)
Definition truthy_str (s : option string) : bool :=
  match s with
  | Some (String _ _) => true
  | _ => false
  end.

Definition _get_required_categories (skin_type : string) (skin_condition : option string)
  (skin_concerns : option (list string)) (age_group budget_level : string) : list string :=
  let base_categories := ["cleanser"; "moisturizer"]%string in
  let base_categories :=
    if truthy_str skin_condition then
      if bool_decide (skin_condition = Some "Mụn"%string)
      then base_categories ++ ["serum"; "spot treatment"]%string
      else if bool_decide (skin_condition = Some "Nám/tàn nhang"%string)
              || bool_decide (skin_condition = Some "Lỗ chân lông to"%string)
      then base_categories ++ ["serum"%string]
      else base_categories
    else base_categories in
  let base_categories :=
    match skin_concerns with
    | Some concerns =>
        fold_left (fun base concern =>
                     match skin_concerns_rules !! concern with
                     | Some cats => base ++ cats
                     | None => base
                     end) concerns base_categories
    | None => base_categories
    end in
  let base_categories :=
    match age_groups_rules !! age_group with
    | Some cats => base_categories ++ cats
    | None => base_categories
    end in
  let base_categories :=
    match budget_levels_rules !! budget_level with
    | Some budget_categories => List.filter (fun cat => str_in cat budget_categories) base_categories
    | None => base_categories
    end in
  take 4 (unique_in_order base_categories).

Definition _get_usage_instructions (category : string) : string :=
  default "Sử dụng theo hướng dẫn"%string
    ((list_to_map
        [ ("cleanser", "Sử dụng 2 lần/ngày (sáng và tối)");
          ("serum", "Sử dụng sau khi rửa mặt, trước kem dưỡng ẩm");
          ("moisturizer", "Sử dụng sau serum, 2 lần/ngày");
          ("sunscreen", "Sử dụng vào buổi sáng, thoa lại sau 2-3 giờ") ]%string
      : gmap string string) !! category).

(** An entry of [recommended_products] and a step of the routine. *)
Record product_info : Type := {
  pi_category : string;
  pi_name : string;
  pi_brand : string
}.

Record routine_step : Type := {
  rs_step : Z;
  rs_category : string;
  rs_product_name : string;
  rs_brand : string;
  rs_usage : string
}.

(** The closing step a skin condition adds, lines 229 to 252. *)
Definition condition_step (skin_condition : option string) (n : Z) : list routine_step :=
  let usage := "Sử dụng sau khi rửa mặt, trước kem dưỡng ẩm"%string in
  if bool_decide (skin_condition = Some "Mụn"%string) then
    [ {| rs_step := n; rs_category := "spot treatment"; rs_product_name := "Spot Treatment";
         rs_brand := "Paula's Choice"; rs_usage := usage |} ]
  else if bool_decide (skin_condition = Some "Nám/tàn nhang"%string) then
    [ {| rs_step := n; rs_category := "serum"; rs_product_name := "Serum Vitamin C";
         rs_brand := "Paula's Choice"; rs_usage := usage |} ]
  else if bool_decide (skin_condition = Some "Lỗ chân lông to"%string) then
    [ {| rs_step := n; rs_category := "serum"; rs_product_name := "Serum Niacinamide";
         rs_brand := "The Ordinary"; rs_usage := usage |} ]
  else [].

Definition _create_skincare_routine (recommended_products : list product_info)
  (skin_condition : option string) : list routine_step :=
  let order := ["cleanser"; "serum"; "moisturizer"; "sunscreen"]%string in
  let routine :=
    fold_left (fun routine step =>
                 match List.find (fun p => String.eqb (pi_category p) step) recommended_products with
                 | Some p =>
                     routine ++ [ {| rs_step := Z.of_nat (length routine) + 1;
                                     rs_category := step;
                                     rs_product_name := pi_name p;
                                     rs_brand := pi_brand p;
                                     rs_usage := _get_usage_instructions step |} ]
                 | None => routine
                 end) order [] in
  routine ++ condition_step skin_condition (Z.of_nat (length routine) + 1).


(** ** Vocabulary of the statements on training and loading *)

(** [isinstance(o, StandardScaler)]. *)
Definition is_scaler (o : pyobj) : bool :=
  match o with
  | Scaler _ => true
  | _ => false
  end.

Section TrainingVocabulary.
Context {npr : NpRandom} {sk : Sklearn} {R : Rounding}.
Local Open Scope py_scope.

(** The held-out evaluation of a forest of [n] trees and depth [d] on the
    samples [X] with labels [y], stated without the object: the 80/20
    stratified split, a scaler fitted on the training part, the forest
    fitted on the scaled training part, and the accuracy of its
    predictions on the scaled held-out part. *)
Definition held_out (n d : Z) (X : matrix) (y : list Z)
  : outcome (scaler_stats * RandomForestClassifier * Q) :=
  sp <- train_test_split X y ;;
  let '(X_train, X_test, y_train, y_test) := sp in
  st <- scaler_fit X_train ;;
  X_train_scaled <- transform_rows st X_train ;;
  X_test_scaled <- transform_rows st X_test ;;
  f <- forest_fit n d X_train_scaled y_train ;;
  let clf := {| n_estimators := n; max_depth := d; fitted := Some f |} in
  y_pred <- predict clf X_test_scaled ;;
  accuracy <- accuracy_score y_test y_pred ;;
  Ret (st, clf, accuracy).

(** A training that runs to its end: the attribute [o] holds a scaler, the
    held-out evaluation succeeds, and the model path [mp] and the scaler
    path [sp] can both be written.  It yields the fitted scaler, the
    fitted classifier and the held-out accuracy. *)
Definition training (o : pyobj) (mp sp : string) (uw : gset string) (n d : Z)
  (X : matrix) (y : list Z) : option (scaler_stats * RandomForestClassifier * Q) :=
  if is_scaler o && negb (bool_decide (mp ∈ uw)) && negb (bool_decide (sp ∈ uw))
  then match held_out n d X y with
       | Ret t => Some t
       | Raise _ => None
       end
  else None.

Definition type_training (w : World) (X : matrix) (y : list Z)
  : option (scaler_stats * RandomForestClassifier * Q) :=
  training (scaler (self w)) (model_path (self w)) (scaler_path (self w)) (unwritable w) 40 7 X y.

Definition cond_training (w : World) (X : matrix) (y : list Z)
  : option (scaler_stats * RandomForestClassifier * Q) :=
  training (cond_scaler (self w)) (cond_model_path (self w)) (cond_scaler_path (self w))
           (unwritable w) 50 8 X y.

(** The accuracy a training method returns: the held-out accuracy of a
    training that ran to its end, 0.0 otherwise. *)
Definition returned_accuracy (t : option (scaler_stats * RandomForestClassifier * Q)) : Q :=
  match t with
  | Some (_, _, accuracy) => accuracy
  | None => 0%Q
  end.

(** What [train_model] leaves: after a training that ran to its end, the
    classifier, the scaler, the flag and the two files, the model written
    first; otherwise the flag as it was and the disk as it was, except
    that the model file may already hold the new classifier (when only
    the scaler file could not be written). *)
Definition type_outcome (X : matrix) (y : list Z) (w w' : World) : Prop :=
  match type_training w X y with
  | Some (st, clf, _) =>
      model (self w') = Forest clf /\ fitted clf <> None /\
      n_estimators clf = 40%Z /\ max_depth clf = 7%Z /\
      scaler (self w') = Scaler (Some st) /\ is_trained (self w') = true /\
      disk w' = <[scaler_path (self w) := FPickle (Scaler (Some st))]>
                  (<[model_path (self w) := FPickle (Forest clf)]> (disk w))
  | None =>
      is_trained (self w') = is_trained (self w) /\
      (disk w' = disk w \/
       exists clf, fitted clf <> None /\ model (self w') = Forest clf /\
                   scaler_path (self w) ∈ unwritable w /\
                   disk w' = <[model_path (self w) := FPickle (Forest clf)]> (disk w))
  end.

(** What training the skin-type model never touches. *)
Definition type_frame (w w' : World) : Prop :=
  model_path (self w') = model_path (self w) /\
  scaler_path (self w') = scaler_path (self w) /\
  cond_model_path (self w') = cond_model_path (self w) /\
  cond_scaler_path (self w') = cond_scaler_path (self w) /\
  cond_model (self w') = cond_model (self w) /\
  cond_scaler (self w') = cond_scaler (self w) /\
  is_cond_trained (self w') = is_cond_trained (self w) /\
  unwritable w' = unwritable w /\
  np_random w' = np_random w.

(** The same for [train_condition_model]. *)
Definition cond_outcome (X : matrix) (y : list Z) (w w' : World) : Prop :=
  match cond_training w X y with
  | Some (st, clf, _) =>
      cond_model (self w') = Forest clf /\ fitted clf <> None /\
      n_estimators clf = 50%Z /\ max_depth clf = 8%Z /\
      cond_scaler (self w') = Scaler (Some st) /\ is_cond_trained (self w') = true /\
      disk w' = <[cond_scaler_path (self w) := FPickle (Scaler (Some st))]>
                  (<[cond_model_path (self w) := FPickle (Forest clf)]> (disk w))
  | None =>
      is_cond_trained (self w') = is_cond_trained (self w) /\
      (disk w' = disk w \/
       exists clf, fitted clf <> None /\ cond_model (self w') = Forest clf /\
                   cond_scaler_path (self w) ∈ unwritable w /\
                   disk w' = <[cond_model_path (self w) := FPickle (Forest clf)]> (disk w))
  end.

Definition cond_frame (w w' : World) : Prop :=
  model_path (self w') = model_path (self w) /\
  scaler_path (self w') = scaler_path (self w) /\
  cond_model_path (self w') = cond_model_path (self w) /\
  cond_scaler_path (self w') = cond_scaler_path (self w) /\
  model (self w') = model (self w) /\
  scaler (self w') = scaler (self w) /\
  is_trained (self w') = is_trained (self w) /\
  unwritable w' = unwritable w /\
  np_random w' = np_random w.

(** What [_load_model] leaves, by what the two paths hold. *)
Definition loaded_as (w w' : World) : Prop :=
  match disk w !! model_path (self w), disk w !! scaler_path (self w) with
  | Some (FPickle m), Some (FPickle s) =>
      model (self w') = m /\ scaler (self w') = s /\ is_trained (self w') = true
  | Some (FPickle m), Some FOther =>
      model (self w') = m /\ scaler (self w') = scaler (self w) /\
      is_trained (self w') = is_trained (self w)
  | Some _, None =>
      model (self w') = model (self w) /\ scaler (self w') = scaler (self w) /\
      is_trained (self w') = false
  | _, _ =>
      model (self w') = model (self w) /\ scaler (self w') = scaler (self w) /\
      is_trained (self w') = is_trained (self w)
  end.
End TrainingVocabulary.

(** ** Further concrete instances *)

Module ToyMore.
Import Toy Examples.

Definition set_model_path (v : string) (a : SkinAnalyzer) : SkinAnalyzer :=
  {| model_path := v; cond_model_path := cond_model_path a;
     scaler_path := scaler_path a; cond_scaler_path := cond_scaler_path a;
     model := model a; cond_model := cond_model a;
     scaler := scaler a; cond_scaler := cond_scaler a;
     is_trained := is_trained a; is_cond_trained := is_cond_trained a |}.

(** As [Toy.sk], with a scorer that always reports nine in ten. *)
Definition sk_accurate : Sklearn :=
  {| shuffle_split := fun X y => Ret (X, X, y, y);
     scaler_fit := fun X => Ret unit_scaler;
     forest_fit := fun _ _ _ _ => Ret one_rule;
     accuracy_score := fun _ _ => Ret 0.9%Q |}.

(** A key derivation that concatenates salt and password. *)
Definition hl : Hashlib :=
  {| pbkdf2_hmac_sha256 := fun password salt _ => salt ++ password |}.

(** Two samples of class 1. *)
Definition two_samples : matrix := [features18; features18].
Definition two_labels : list Z := [1; 1]%Z.

(** A forest over the classes that occur in the labels, as scikit-learn
    fits it; every class gets the same probability. *)
Definition by_labels (y : list Z) : forest :=
  let classes := List.filter (fun c => existsb (Z.eqb c) y) [0; 1; 2; 3]%Z in
  {| n_features_in_ := 18;
     classes_ := classes;
     proba_of := fun _ => repeat (1 / inject_Z (Z.of_nat (length classes)))%Q (length classes) |}.

Definition sk_by_labels : Sklearn :=
  {| shuffle_split := fun X y => Ret (X, X, y, y);
     scaler_fit := fun X => Ret unit_scaler;
     forest_fit := fun _ _ _ y => Ret (by_labels y);
     accuracy_score := fun y p =>
       if (length y =? 0)%nat then Raise ValueError
       else Ret (inject_Z (Z.of_nat (count_equal y p)) / inject_Z (Z.of_nat (length y)))%Q |}.

(** Ten samples of two classes, and the analyzers that [train_model]
    leaves after training on two classes and on one. *)
Definition ten_samples : matrix := repeat features18 10.
Definition two_class_labels : list Z := [0; 0; 0; 0; 0; 1; 1; 1; 1; 1]%Z.

Definition two_class_analyzer : SkinAnalyzer :=
  self (snd (train_model (sk := sk_by_labels) ten_samples two_class_labels w0)).


(** The prediction of [two_class_analyzer] on [row18]. *)
Definition p2 : type_prediction :=
  Eval vm_compute in
    match predict_skin_type two_class_analyzer row18 with
    | Ret (Success p) => p
    | _ => {| skin_type := ""; skin_type_code := 0; confidence := 0;
              all_probabilities := ∅; description := "" |}
    end.

(** A new analyzer whose model path lies in a directory that does not
    exist. *)
Definition locked : World :=
  {| self := set_model_path "models/skin_type_model.pkl" fresh;
     disk := ∅;
     unwritable := {[ "models/skin_type_model.pkl"%string ]};
     np_random := seed 0 |}.

(** What [generate_synthetic_data(1000)] returns there. *)
Definition generated1000 : dataset :=
  match fst (generate_synthetic_data 1000 locked) with
  | Ret ds => ds
  | Raise _ => ([], [], [])
  end.
Definition X1000 : list (list Q) := fst (fst generated1000).
Definition yt1000 : list Z := snd (fst generated1000).
Definition yc1000 : list Z := snd generated1000.

(** The prediction of [ready] on [row18]. *)
Definition p18 : type_prediction :=
  Eval vm_compute in
    match predict_skin_type ready row18 with
    | Ret (Success p) => p
    | _ => {| skin_type := ""; skin_type_code := 0; confidence := 0;
              all_probabilities := ∅; description := "" |}
    end.
End ToyMore.

(** * Properties *)

(** ** The feature extractor *)

Lemma concat_threshold (g : gray) (t m : Z) :
  concat (threshold g t m) = map (fun p => if (t <? p)%Z then m else 0%Z) (concat g).
Proof.
  unfold threshold. induction g as [|row g IH]; simpl; [reflexivity|].
  rewrite map_app, IH. reflexivity.
Qed.

Lemma count_bright_le_dark (l : list Z) :
  (length (filter (fun p => p <> 0%Z) (map (fun p => if (200 <? p)%Z then 255%Z else 0%Z) l))
   <= length (filter (fun p => p <> 0%Z) (map (fun p => if (127 <? p)%Z then 255%Z else 0%Z) l)))%nat.
Proof.
  induction l as [|p l IH]; simpl; [lia|].
  rewrite !filter_cons.
  destruct (Z.ltb_spec 200 p), (Z.ltb_spec 127 p); repeat case_decide; simpl; try lia; try congruence.
Qed.

Lemma countNonZero_threshold_mono (g : gray) :
  (countNonZero (threshold g 200 255) <= countNonZero (threshold g 127 255))%Z.
Proof.
  unfold countNonZero. rewrite !concat_threshold.
  apply inj_le, count_bright_le_dark.
Qed.

Section Division.
Context {R : Rounding}.
Lemma int_div_mono (a b c : Z) (qa qb : Q) :
  (a <= b)%Z -> (0 <= c)%Z ->
  int_div a c = Ret qa -> int_div b c = Ret qb -> (qa <= qb)%Q.
Proof.
  unfold int_div, fdiv. intros Hab Hc.
  destruct (Qeq_bool (inject_Z c) 0) eqn:E; [discriminate|].
  intros [= <-] [= <-]. apply rnd_mono.
  apply Qeq_bool_neq in E.
  assert (0 < inject_Z c)%Q as Hpos.
  { assert (c <> 0)%Z by (intros ->; apply E; reflexivity).
    change 0%Q with (inject_Z 0). rewrite <- Zlt_Qlt. lia. }
  unfold Qdiv. apply Qmult_le_compat_r.
  - rewrite <- Zle_Qle. exact Hab.
  - apply Qlt_le_weak, Qinv_lt_0_compat, Hpos.
Qed.
End Division.

Section ExtractorFacts.
Context {R : Rounding} {cv : Cv2} {np : Numpy}.

Ltac step_bind :=
  match goal with
  | H : context [obind ?c _] |- _ =>
      let E := fresh "E" in destruct c eqn:E; simpl in H; [|discriminate H]
  | H : context [let '(_, _) := ?p in _] |- _ => destruct p
  end.

(** What a successful run of the body returns. *)
Lemma extract_body_inv (img : image) (x y w h : Z) (v : list Q) :
  extract_body img (x, y, w, h) = Ret v ->
  exists g d o,
    length v = 18%nat /\
    cvtColor BGR2GRAY (crop img x y w h) = Ret g /\
    int_div (countNonZero (threshold g 127 255)) (size_of g) = Ret d /\
    int_div (countNonZero (threshold g 200 255)) (size_of g) = Ret o /\
    v !! 15%nat = Some (rnd32 d) /\ v !! 16%nat = Some (rnd32 o).
Proof.
  unfold extract_body. intros H.
  repeat step_bind.
  injection H as <-.
  eexists _, _, _. repeat split; try eassumption; reflexivity.
Qed.

(** C1: for every image and face rectangle, [extract_skin_features] returns
    a vector of 18 numbers and does not raise; whenever its body raises (an
    empty crop, a failed colour conversion, anything else) the result is
    the zero vector of length 18. *)
Theorem extract_never_raises (img : image) (x y w h : Z) :
  (exists v, extract_skin_features img (x, y, w, h) = Ret v /\ length v = 18%nat) /\
  (forall e, extract_body img (x, y, w, h) = Raise e ->
             extract_skin_features img (x, y, w, h) = Ret zeros18) /\
  (img_empty (crop img x y w h) = true ->
   extract_skin_features img (x, y, w, h) = Ret zeros18) /\
  (forall e, BGR2HSV (crop img x y w h) = Raise e \/
             BGR2LAB (crop img x y w h) = Raise e \/
             BGR2GRAY (crop img x y w h) = Raise e ->
             extract_skin_features img (x, y, w, h) = Ret zeros18).
Proof.
  assert (forall e, extract_body img (x, y, w, h) = Raise e ->
                    extract_skin_features img (x, y, w, h) = Ret zeros18) as Hfall.
  { intros e He. unfold extract_skin_features. rewrite He. reflexivity. }
  split; [|split; [exact Hfall|split]].
  - unfold extract_skin_features.
    destruct (extract_body img (x, y, w, h)) as [v|e] eqn:E; simpl.
    + exists v. split; [reflexivity|].
      apply extract_body_inv in E. destruct E as (g & d & o & Hlen & _). exact Hlen.
    + exists zeros18. split; reflexivity.
  - intros Hempty. apply (Hfall cv2_error).
    unfold extract_body, cvtColor. rewrite Hempty. reflexivity.
  - intros e Hconv.
    destruct (extract_body img (x, y, w, h)) as [v|e'] eqn:E; [|apply (Hfall e'); reflexivity].
    exfalso. unfold extract_body, cvtColor in E.
    destruct (img_empty (crop img x y w h)); [discriminate E|].
    destruct Hconv as [Hc|[Hc|Hc]].
    + rewrite Hc in E. discriminate E.
    + destruct (BGR2HSV _); [|discriminate E]. simpl in E. rewrite Hc in E. discriminate E.
    + destruct (BGR2HSV _); [|discriminate E]. simpl in E.
      destruct (BGR2LAB _); [|discriminate E]. simpl in E.
      rewrite Hc in E. discriminate E.
Qed.

(** C10: when extraction succeeds, the oily-area ratio (entry 16) is at most
    the dark-spot ratio (entry 15). *)
Theorem oily_ratio_le_dark_spot_ratio (img : image) (x y w h : Z) (v : list Q) :
  extract_body img (x, y, w, h) = Ret v ->
  extract_skin_features img (x, y, w, h) = Ret v /\
  exists dark_spot_ratio oily_ratio,
    v !! 15%nat = Some dark_spot_ratio /\
    v !! 16%nat = Some oily_ratio /\
    (oily_ratio <= dark_spot_ratio)%Q.
Proof.
  intros Hbody. split.
  - unfold extract_skin_features. rewrite Hbody. reflexivity.
  - apply extract_body_inv in Hbody.
    destruct Hbody as (g & d & o & _ & _ & Hd & Ho & H15 & H16).
    exists (rnd32 d), (rnd32 o). repeat split; try assumption.
    apply rnd32_mono.
    eapply int_div_mono; [apply countNonZero_threshold_mono| |exact Ho|exact Hd].
    unfold size_of. lia.
Qed.
End ExtractorFacts.


Section GeneratorFacts.
Context {R : Rounding} {npr : NpRandom}.


Lemma normal_from_length g loc scale size :
  length (fst (normal_from g loc scale size)) = size.
Proof.
  revert g. induction size as [|k IH]; intros g; simpl; [reflexivity|].
  destruct (gauss g) as [z g1]. specialize (IH g1).
  destruct (normal_from g1 loc scale k) as [zs g2]. simpl in *. lia.
Qed.

Lemma draw_sample_spec (t c : Z) (w : World) :
  label t -> label c ->
  draw_sample t c w =
    (Ret (spec_sample t c (fst (normal_from (np_random w) 0 (noise_sd t) 18))),
     with_np_random (snd (normal_from (np_random w) 0 (noise_sd t) 18)) w).
Proof.
  intros Ht Hc.
  destruct Ht as [-> | [-> | [-> | ->]]]; destruct Hc as [-> | [-> | [-> | ->]]];
    unfold draw_sample, mbind, np_random_normal; cbn [base_of Z.eqb Pos.eqb adjust add_at];
    cbn [length map alter list_alter noise_sd];
    destruct (normal_from _ _ _ _) as [v g]; reflexivity.
Qed.
End GeneratorFacts.

Section Loops.
Context {R : Rounding} {npr : NpRandom}.





Lemma same_object_refl w : same_object w w.
Proof. repeat split; reflexivity. Qed.

Lemma same_object_trans w1 w2 w3 :
  same_object w1 w2 -> same_object w2 w3 -> same_object w1 w3.
Proof. intros (H1 & H2 & H3) (H4 & H5 & H6). repeat split; congruence. Qed.

Lemma append_sample_spec (t c : Z) (acc : dataset) (w : World) :
  label t -> label c ->
  exists row w',
    append_sample t c acc w = (Ret (ds_app acc ([row], [t], [c])), w') /\
    sample_ok row t c /\ same_object w w'.
Proof.
  intros Ht Hc. destruct acc as [[X yt] yc].
  unfold append_sample, mbind. rewrite (draw_sample_spec t c w Ht Hc).
  eexists _, _. split; [reflexivity|]. split.
  - split; [exact Ht|]. split; [exact Hc|]. eexists. reflexivity.
  - repeat split; reflexivity.
Qed.

Lemma ds_app_assoc a b c : ds_app (ds_app a b) c = ds_app a (ds_app b c).
Proof. unfold ds_app. simpl. rewrite <- !app_assoc. reflexivity. Qed.

Lemma ds_app_nil_r a : ds_app a ([], [], []) = a.
Proof. destruct a as [[X yt] yc]. unfold ds_app. simpl. rewrite !app_nil_r. reflexivity. Qed.

Lemma inner_loop (t c : Z) (l : list Z) (acc : dataset) (w : World) :
  label t -> label c ->
  exists b w',
    mfor l (fun acc _ => append_sample t c acc) acc w = (Ret (ds_app acc b), w') /\
    block t c (length l) b /\ same_object w w'.
Proof.
  intros Ht Hc. revert acc w.
  induction l as [|x l IH]; intros acc w.
  - exists ([], [], []), w. rewrite ds_app_nil_r. split; [reflexivity|].
    split; [|apply same_object_refl].
    repeat split. simpl. constructor.
  - destruct (append_sample_spec t c acc w Ht Hc) as (row & w1 & E1 & Hrow & Hw1).
    destruct (IH (ds_app acc ([row], [t], [c])) w1) as (b & w2 & E2 & (Hbt & Hbc & Hb) & Hw2).
    exists (ds_app ([row], [t], [c]) b), w2.
    cbn [mfor]. unfold mbind at 1. rewrite E1, E2, ds_app_assoc.
    split; [reflexivity|]. split; [|eapply same_object_trans; eassumption].
    unfold block, ds_app. simpl. rewrite Hbt, Hbc. repeat split.
    constructor; [exact Hrow|]. rewrite <- Hbt, <- Hbc. exact Hb.
Qed.



Lemma label_cases : label 0 /\ label 1 /\ label 2 /\ label 3.
Proof. unfold label. repeat split; auto. Qed.

Ltac run_inner :=
  match goal with
  | |- context [mfor (py_range ?k) (fun a _ => append_sample ?t ?c a) ?acc ?w] =>
      let b := fresh "b" in let w' := fresh "w" in
      let E := fresh "E" in let Hb := fresh "Hb" in let Hw := fresh "Hw" in
      destruct (inner_loop t c (py_range k) acc w) as (b & w' & E & Hb & Hw);
      [unfold label; auto | unfold label; auto | rewrite E; clear E]
  end.

Lemma py_range_length k : length (py_range k) = Z.to_nat k.
Proof. unfold py_range. rewrite length_map, length_seq. reflexivity. Qed.

Lemma generate_body_blocks (n : Z) (w : World) :
  exists bs w',
    generate_body n w = (Ret (foldl ds_app ([], [], []) bs), w') /\
    Forall2 (fun tc b => block (fst tc) (snd tc) (Z.to_nat (n / 4 / 4)) b) strata bs /\
    same_object w w'.
Proof.
  unfold generate_body, np_random_seed, mmodify.
  unfold mbind at 1.
  change (py_range 4) with [0; 1; 2; 3]%Z.
  cbn [mfor]. unfold mbind, mret.
  do 16 run_inner.
  eexists [_; _; _; _; _; _; _; _; _; _; _; _; _; _; _; _], _.
  split; [reflexivity|]. split.
  - rewrite py_range_length in *. unfold strata. repeat (constructor; [assumption|]). constructor.
  - repeat (eapply same_object_trans; [|eassumption]). repeat split; reflexivity.
Qed.

Lemma stratum_count_app (a b : dataset) (t c : Z) :
  length (snd (fst a)) = length (snd a) ->
  stratum_count (ds_app a b) t c = (stratum_count a t c + stratum_count b t c)%nat.
Proof.
  intros Hlen. unfold stratum_count, ds_app. simpl.
  rewrite zip_with_app by exact Hlen.
  rewrite filter_app, length_app. reflexivity.
Qed.

Lemma stratum_count_block (t' c' : Z) (k : nat) (b : dataset) (t c : Z) :
  block t' c' k b ->
  stratum_count b t c = (k * length (filter (fun p => p = (t, c)) [(t', c')]))%nat.
Proof.
  intros (Ht & Hc & _). unfold stratum_count. rewrite Ht, Hc.
  rewrite zip_with_replicate. clear Ht Hc.
  rewrite filter_cons, filter_nil.
  induction k as [|k IH]; simpl; [reflexivity|].
  rewrite filter_cons. destruct (decide ((t', c') = (t, c))); simpl in *; lia.
Qed.

Lemma well_formed_app (a b : dataset) :
  well_formed a -> well_formed b -> well_formed (ds_app a b).
Proof. unfold well_formed, ds_app. simpl. apply Forall3_app. Qed.

Lemma blocks_fold (k : nat) (S : list (Z * Z)) (bs : list dataset) :
  Forall2 (fun tc b => block (fst tc) (snd tc) k b) S bs ->
  forall acc, well_formed acc ->
    well_formed (foldl ds_app acc bs) /\
    length (fst (fst (foldl ds_app acc bs))) = (length (fst (fst acc)) + k * length S)%nat /\
    forall t c, stratum_count (foldl ds_app acc bs) t c =
                (stratum_count acc t c + k * length (filter (fun p => p = (t, c)) S))%nat.
Proof.
  induction 1 as [|[t' c'] b S bs Hb _ IH]; intros acc Hacc.
  - simpl. split; [exact Hacc|]. split; [lia|]. intros t c. rewrite ?filter_nil. simpl. lia.
  - simpl in Hb. cbn [foldl].
    assert (well_formed b) as Hwb by (destruct Hb as (_ & _ & H); exact H).
    destruct (IH (ds_app acc b) (well_formed_app _ _ Hacc Hwb)) as (Hwf & Hlen & Hcnt).
    split; [exact Hwf|]. split.
    + rewrite Hlen. unfold ds_app. simpl. rewrite length_app.
      destruct Hb as (Ht & _ & H3). apply Forall3_length_lm in H3.
      rewrite H3, Ht, length_replicate. simpl. lia.
    + intros t c. rewrite Hcnt, stratum_count_app.
      * rewrite (stratum_count_block t' c' k b t c Hb).
        rewrite (filter_cons _ (t', c') S), !filter_cons, filter_nil.
        case_decide; simpl; lia.
      * unfold well_formed in Hacc.
        rewrite <- (Forall3_length_lm _ _ _ _ Hacc). apply (Forall3_length_lr _ _ _ _ Hacc).
Qed.

Lemma strata_once (t c : Z) :
  label t -> label c -> length (filter (fun p => p = (t, c)) strata) = 1%nat.
Proof.
  intros [-> | [-> | [-> | ->]]] [-> | [-> | [-> | ->]]]; reflexivity.
Qed.

(** The whole run, in terms of the sixteen strata. *)
Lemma generate_spec (n : Z) (w : World) :
  exists ds w',
    generate_synthetic_data n w = (Ret ds, w') /\
    same_object w w' /\
    well_formed ds /\
    length (fst (fst ds)) = (16 * Z.to_nat (n / 16))%nat /\
    forall t c, label t -> label c -> stratum_count ds t c = Z.to_nat (n / 16).
Proof.
  destruct (generate_body_blocks n w) as (bs & w' & E & Hbs & Hw).
  exists (foldl ds_app ([], [], []) bs), w'.
  unfold generate_synthetic_data, mtry. rewrite E. split; [reflexivity|].
  split; [exact Hw|].
  assert (well_formed ([], [], [])) as H0 by constructor.
  destruct (blocks_fold _ _ _ Hbs _ H0) as (Hwf & Hlen & Hcnt).
  rewrite Z.div_div in * by lia. change (4 * 4)%Z with 16%Z in *.
  split; [exact Hwf|]. split.
  - rewrite Hlen. simpl. lia.
  - intros t c Ht Hc. rewrite Hcnt, strata_once by assumption.
    unfold stratum_count. simpl. lia.
Qed.
End Loops.

Section GeneratorClaims.
Context {R : Rounding} {npr : NpRandom}.

Lemma np_clip_range (x : Q) : (0 <= np_clip 0 1 x <= 1)%Q.
Proof.
  unfold np_clip, np_minimum, np_maximum.
  destruct (Qle_bool x 0) eqn:E0.
  - change (Qle_bool 0 1) with true. cbv iota. split; [apply Qle_refl|discriminate].
  - assert (0 <= x)%Q as Hx.
    { destruct (Qlt_le_dec x 0) as [Hlt|Hle]; [|exact Hle].
      apply Qlt_le_weak in Hlt. apply Qle_bool_iff in Hlt. congruence. }
    destruct (Qle_bool x 1) eqn:E1.
    + split; [exact Hx|]. apply Qle_bool_iff. exact E1.
    + split; [discriminate|apply Qle_refl].
Qed.

Lemma perturbed_prototype_length (t c : Z) :
  label t -> label c -> length (perturbed_prototype t c) = 18%nat.
Proof.
  intros [-> | [-> | [-> | ->]]] [-> | [-> | [-> | ->]]]; reflexivity.
Qed.

Lemma generate_same_object (n : Z) (w w1 : World) :
  same_object w w1 -> generate_synthetic_data n w1 = generate_synthetic_data n w.
Proof.
  intros (Hs & Hd & Hu).
  unfold generate_synthetic_data, mtry.
  assert (generate_body n w1 = generate_body n w) as ->; [|reflexivity].
  unfold generate_body, np_random_seed, mmodify.
  set (loops := mfor _ _ _).
  unfold mbind, with_np_random. rewrite Hs, Hd, Hu. reflexivity.
Qed.

(** C3: [generate_synthetic_data n] returns floor(n / 16) samples for each
    of the sixteen strata and 16 * floor(n / 16) samples in all (none when
    [n] is negative); the remainder is dropped. *)
Theorem generate_strata_counts (n : Z) (w : World) :
  exists X yt yc w',
    generate_synthetic_data n w = (Ret (X, yt, yc), w') /\
    Z.of_nat (length X) = (16 * Z.max 0 (n / 16))%Z /\
    length yt = length X /\ length yc = length X /\
    forall t c, label t -> label c ->
      Z.of_nat (stratum_count (X, yt, yc) t c) = Z.max 0 (n / 16).
Proof.
  destruct (generate_spec n w) as ([[X yt] yc] & w' & E & _ & Hwf & Hlen & Hcnt).
  exists X, yt, yc, w'. simpl in *. split; [exact E|].
  unfold well_formed in Hwf. simpl in Hwf.
  split; [lia|]. split; [symmetry; eapply Forall3_length_lm; exact Hwf|].
  split; [symmetry; eapply Forall3_length_lr; exact Hwf|].
  intros t c Ht Hc. rewrite (Hcnt t c Ht Hc). lia.
Qed.

(** C4: every generated sample is the prototype of its skin type, raised by
    0.2 on the dimension of its skin condition, plus eighteen normal draws
    of the standard deviation of its skin type, clamped to [0, 1]; hence it
    has 18 entries, all in [0, 1]. *)
Theorem samples_are_clamped_noisy_prototypes
  (n : Z) (w w' : World) (X : list (list Q)) (yt yc : list Z) :
  generate_synthetic_data n w = (Ret (X, yt, yc), w') ->
  forall (i : nat) (row : list Q), X !! i = Some row ->
    exists t c g,
      yt !! i = Some t /\ yc !! i = Some c /\ label t /\ label c /\
      row = map (np_clip 0 1)
                (zip_with fadd (perturbed_prototype t c) (fst (normal_from g 0 (noise_sd t) 18))) /\
      length row = 18%nat /\
      Forall (fun v => (0 <= v <= 1)%Q) row.
Proof.
  intros E i row Hi.
  destruct (generate_spec n w) as (ds & w1 & E1 & _ & Hwf & _).
  rewrite E in E1. injection E1 as <- <-.
  unfold well_formed in Hwf. simpl in Hwf.
  destruct (Forall3_lookup_l _ _ _ _ _ _ Hwf Hi) as (t & c & Ht & Hc & Hlt & Hlc & g & Hrow).
  exists t, c, g.
  split; [exact Ht|]. split; [exact Hc|]. split; [exact Hlt|]. split; [exact Hlc|].
  split; [exact Hrow|].
  subst row. unfold spec_sample. split.
  - rewrite length_map, length_zip_with, perturbed_prototype_length, normal_from_length by assumption.
    reflexivity.
  - apply Forall_map, Forall_forall. intros v _. apply np_clip_range.
Qed.

(** C8 (amended): [generate_synthetic_data] seeds the global generator with
    42 itself, so its result does not depend on the random state or seed
    the caller left, and a second run returns what the first returned. *)
Theorem generate_always_reseeds (n : Z) (w : World) :
  (forall g, generate_synthetic_data n (with_np_random g w) = generate_synthetic_data n w) /\
  generate_synthetic_data n (snd (generate_synthetic_data n w)) = generate_synthetic_data n w.
Proof.
  split.
  - intros g. apply generate_same_object. repeat split; reflexivity.
  - apply generate_same_object.
    destruct (generate_spec n w) as (ds & w' & E & Hw & _). rewrite E. exact Hw.
Qed.
End GeneratorClaims.


Section TrainingFacts.
Context {R : Rounding} {npr : NpRandom} {sk : Sklearn} {ps : PyStr}.

Lemma mtry_returns {S A} (body : M S A) (d : A) (s : S) :
  exists a s', mtry body (fun _ => mret d) s = (Ret a, s').
Proof.
  unfold mtry. destruct (body s) as [[a|e] s']; eexists _, _; reflexivity.
Qed.

Lemma train_model_returns features labels w :
  exists acc w', train_model features labels w = (Ret acc, w').
Proof. apply mtry_returns. Qed.

Lemma train_condition_model_returns features labels w :
  exists acc w', train_condition_model features labels w = (Ret acc, w').
Proof. apply mtry_returns. Qed.

Lemma Qgtb_true (a b : Q) : Qgtb a b = true <-> (b < a)%Q.
Proof.
  unfold Qgtb. rewrite negb_true_iff. split.
  - intros H. destruct (Qlt_le_dec b a) as [Hlt|Hle]; [exact Hlt|].
    apply Qle_bool_iff in Hle. congruence.
  - intros H. destruct (Qle_bool a b) eqn:E; [|reflexivity].
    apply Qle_bool_iff in E. exfalso. exact (Qlt_not_le _ _ H E).
Qed.

Lemma single_member_refused (features : matrix) (labels : list Z) :
  (exists c, c ∈ labels /\ (length (filter (fun c' => c' = c) labels) < 2)%nat) ->
  train_test_split features labels = Raise ValueError.
Proof.
  intros (c & Hin & Hlt). unfold train_test_split.
  assert (existsb (fun c => (length (filter (fun c' => c' = c) labels) <? 2)%nat) labels = true) as ->;
    [|reflexivity].
  apply existsb_exists. exists c. split.
  - apply list_elem_of_In. exact Hin.
  - apply Nat.ltb_lt. exact Hlt.
Qed.

(** C6 (amended): when some class of the labels has a single sample, both
    training methods return the accuracy 0.0 and leave the state as it was;
    no exception reaches the caller. *)
Theorem train_returns_zero_on_small_class (features : matrix) (labels : list Z) (w : World) :
  (exists c, c ∈ labels /\ (length (filter (fun c' => c' = c) labels) < 2)%nat) ->
  train_model features labels w = (Ret 0%Q, w) /\
  train_condition_model features labels w = (Ret 0%Q, w).
Proof.
  intros H. apply (single_member_refused features) in H.
  unfold train_model, train_condition_model, mtry, mbind, mlift. rewrite H. split; reflexivity.
Qed.

Lemma Qgtb_zero_false (b : Q) : (0 <= b)%Q -> Qgtb 0 b = false.
Proof.
  intros H. unfold Qgtb. apply negb_false_iff, Qle_bool_iff, H.
Qed.

Ltac aborted :=
  eexists _, _; split; [reflexivity|]; split; [repeat split|];
  cbn [is_scaler andb obind negb returned_accuracy];
  repeat match goal with
         | |- context [if ?c then _ else _] => destruct c
         end;
  cbn [returned_accuracy];
  (split; [reflexivity|]); (split; [reflexivity|]); left; reflexivity.

(** [train_model] step by step: the value it returns and the state it
    leaves, by whether the training runs to its end. *)
Lemma train_model_cases (features : matrix) (labels : list Z) (w : World) :
  exists r w', train_model features labels w = (Ret r, w') /\ type_frame w w' /\
               r = returned_accuracy (type_training w features labels) /\
               type_outcome features labels w w'.
Proof.
  unfold train_model, mtry, type_outcome, type_training, training, held_out.
  unfold mbind at 1. unfold mlift at 1.
  destruct (train_test_split features labels) as [[[[X_train X_test] y_train] y_test]|e].
  2:{ aborted. }
  cbv beta iota. cbn [obind]. unfold mbind at 1. unfold mget at 1. cbv beta iota.
  unfold mbind at 1. unfold fit_transform.
  destruct (scaler (self w)) as [|clf0|s0|] eqn:Hsc; try aborted.
  unfold mbind at 1. unfold mmodify at 1. cbv beta iota.
  unfold mbind at 1. unfold mlift at 1.
  destruct (scaler_fit X_train) as [st|e].
  2:{ aborted. }
  cbv beta iota. cbn [obind]. unfold mbind at 1. unfold mmodify at 1. cbv beta iota.
  unfold mlift at 1.
  destruct (transform_rows st X_train) as [X_train_scaled|e].
  2:{ aborted. }
  cbv beta iota. cbn [obind]. unfold mbind at 1. unfold mget at 1. cbv beta iota.
  unfold mbind at 1. cbn [self with_self scaler set_scaler transform_with].
  unfold mlift at 1.
  destruct (transform_rows st X_test) as [X_test_scaled|e].
  2:{ aborted. }
  cbv beta iota. cbn [obind]. unfold mbind at 1. unfold mmodify at 1. cbv beta iota.
  unfold mbind at 1. unfold fit_stored. unfold mbind at 1. unfold mlift at 1.
  cbn [n_estimators max_depth].
  destruct (forest_fit 40 7 X_train_scaled y_train) as [f|e].
  2:{ aborted. }
  cbv beta iota. cbn [obind]. unfold mbind at 1. unfold mmodify at 1. cbv beta iota.
  unfold mret at 1. cbv beta iota.
  unfold mbind at 1. unfold mlift at 1.
  destruct (predict _ X_test_scaled) as [y_pred|e] eqn:Hpred.
  2:{ aborted. }
  cbv beta iota. cbn [obind]. unfold mbind at 1. unfold mlift at 1.
  destruct (accuracy_score y_test y_pred) as [accuracy|e] eqn:Hacc.
  2:{ aborted. }
  cbv beta iota. cbn [obind]. unfold mbind at 1. unfold mget at 1. cbv beta iota.
  unfold mbind at 1. unfold joblib_dump at 1.
  cbn [self with_self with_disk model scaler cond_model cond_scaler set_model set_scaler
       set_cond_model set_cond_scaler model_path scaler_path cond_model_path cond_scaler_path
       unwritable is_scaler andb negb].
  destruct (bool_decide (model_path (self w) ∈ unwritable w)) eqn:Hmp.
  { aborted. }
  cbv beta iota. unfold mbind at 1. unfold joblib_dump at 1.
  cbn [self with_self with_disk model scaler cond_model cond_scaler set_model set_scaler
       set_cond_model set_cond_scaler model_path scaler_path cond_model_path cond_scaler_path
       unwritable is_scaler andb negb].
  destruct (bool_decide (scaler_path (self w) ∈ unwritable w)) eqn:Hsp.
  { eexists _, _. split; [reflexivity|]. split; [repeat split|].
    cbn. split; [reflexivity|]. split; [reflexivity|].
    right. eexists. split; [|split; [reflexivity|split; [|reflexivity]]].
    - discriminate.
    - apply bool_decide_eq_true in Hsp. exact Hsp. }
  cbv beta iota. unfold mbind at 1. unfold mmodify at 1. cbv beta iota. unfold mret.
  eexists _, _. split; [reflexivity|]. split; [repeat split|].
  cbn. repeat split; try reflexivity. discriminate.
Qed.

Ltac cond_aborted :=
  eexists _, _; split; [reflexivity|]; split; [repeat split|];
  cbn [is_scaler andb obind negb returned_accuracy];
  repeat match goal with
         | |- context [if ?c then _ else _] => destruct c
         end;
  cbn [returned_accuracy];
  (split; [reflexivity|]); (split; [reflexivity|]); left; reflexivity.

Lemma train_condition_model_cases (features : matrix) (labels : list Z) (w : World) :
  exists r w', train_condition_model features labels w = (Ret r, w') /\ cond_frame w w' /\
               r = returned_accuracy (cond_training w features labels) /\
               cond_outcome features labels w w'.
Proof.
  unfold train_condition_model, mtry, cond_outcome, cond_training, training, held_out.
  unfold mbind at 1. unfold mlift at 1.
  destruct (train_test_split features labels) as [[[[X_train X_test] y_train] y_test]|e].
  2:{ cond_aborted. }
  cbv beta iota. cbn [obind]. unfold mbind at 1. unfold mget at 1. cbv beta iota.
  unfold mbind at 1. unfold fit_transform.
  destruct (cond_scaler (self w)) as [|clf0|s0|] eqn:Hsc; try cond_aborted.
  unfold mbind at 1. unfold mmodify at 1. cbv beta iota.
  unfold mbind at 1. unfold mlift at 1.
  destruct (scaler_fit X_train) as [st|e].
  2:{ cond_aborted. }
  cbv beta iota. cbn [obind]. unfold mbind at 1. unfold mmodify at 1. cbv beta iota.
  unfold mlift at 1.
  destruct (transform_rows st X_train) as [X_train_scaled|e].
  2:{ cond_aborted. }
  cbv beta iota. cbn [obind]. unfold mbind at 1. unfold mget at 1. cbv beta iota.
  unfold mbind at 1. cbn [self with_self cond_scaler set_cond_scaler transform_with].
  unfold mlift at 1.
  destruct (transform_rows st X_test) as [X_test_scaled|e].
  2:{ cond_aborted. }
  cbv beta iota. cbn [obind]. unfold mbind at 1. unfold mmodify at 1. cbv beta iota.
  unfold mbind at 1. unfold fit_stored. unfold mbind at 1. unfold mlift at 1.
  cbn [n_estimators max_depth].
  destruct (forest_fit 50 8 X_train_scaled y_train) as [f|e].
  2:{ cond_aborted. }
  cbv beta iota. cbn [obind]. unfold mbind at 1. unfold mmodify at 1. cbv beta iota.
  unfold mret at 1. cbv beta iota.
  unfold mbind at 1. unfold mlift at 1.
  destruct (predict _ X_test_scaled) as [y_pred|e] eqn:Hpred.
  2:{ cond_aborted. }
  cbv beta iota. cbn [obind]. unfold mbind at 1. unfold mlift at 1.
  destruct (accuracy_score y_test y_pred) as [accuracy|e] eqn:Hacc.
  2:{ cond_aborted. }
  cbv beta iota. cbn [obind]. unfold mbind at 1. unfold mget at 1. cbv beta iota.
  unfold mbind at 1. unfold joblib_dump at 1.
  cbn [self with_self with_disk model scaler cond_model cond_scaler set_model set_scaler
       set_cond_model set_cond_scaler model_path scaler_path cond_model_path cond_scaler_path
       unwritable is_scaler andb negb].
  destruct (bool_decide (cond_model_path (self w) ∈ unwritable w)) eqn:Hmp.
  { cond_aborted. }
  cbv beta iota. unfold mbind at 1. unfold joblib_dump at 1.
  cbn [self with_self with_disk model scaler cond_model cond_scaler set_model set_scaler
       set_cond_model set_cond_scaler model_path scaler_path cond_model_path cond_scaler_path
       unwritable is_scaler andb negb].
  destruct (bool_decide (cond_scaler_path (self w) ∈ unwritable w)) eqn:Hsp.
  { eexists _, _. split; [reflexivity|]. split; [repeat split|].
    cbn. split; [reflexivity|]. split; [reflexivity|].
    right. eexists. split; [|split; [reflexivity|split; [|reflexivity]]].
    - discriminate.
    - apply bool_decide_eq_true in Hsp. exact Hsp. }
  cbv beta iota. unfold mbind at 1. unfold mmodify at 1. cbv beta iota. unfold mret.
  eexists _, _. split; [reflexivity|]. split; [repeat split|].
  cbn. repeat split; try reflexivity. discriminate.
Qed.

(** C2 (amended): [auto_train] generates from 1000 requested samples the
    992 of the sixteen strata (62 each) and runs both training methods on
    the same features, with the skin-type and the skin-condition labels.
    Each returns the held-out accuracy of a training that ran to its end
    (split, scaler and forest fitted, held-out predictions scored, model
    and scaler files written), and 0.0 otherwise; [w0] is the state after
    the generation, [w1] the state after the first training.  The answer
    is [True] exactly when both trainings ran to their end with an
    accuracy above 0.6. *)
Theorem auto_train_spec (w : World) :
  exists X yt yc w0 w1 w2,
    generate_synthetic_data 1000 w = (Ret (X, yt, yc), w0) /\
    length X = 992%nat /\
    (forall t c, label t -> label c -> stratum_count (X, yt, yc) t c = 62%nat) /\
    let acc_t := returned_accuracy (type_training w0 X yt) in
    let acc_c := returned_accuracy (cond_training w1 X yc) in
    train_model X yt w0 = (Ret acc_t, w1) /\ type_outcome X yt w0 w1 /\
    train_condition_model X yc w1 = (Ret acc_c, w2) /\ cond_outcome X yc w1 w2 /\
    auto_train w = (Ret (Qgtb acc_t (lit 0.6) && Qgtb acc_c (lit 0.6)), w2) /\
    ((0 <= lit 0.6)%Q ->
     (fst (auto_train w) = Ret true <->
      exists st clf r st' clf' r',
        type_training w0 X yt = Some (st, clf, r) /\ (lit 0.6 < r)%Q /\
        cond_training w1 X yc = Some (st', clf', r') /\ (lit 0.6 < r')%Q)).
Proof.
  destruct (generate_spec 1000 w) as ([[X yt] yc] & w0 & E & _ & _ & Hlen & Hcnt).
  change (1000 / 16)%Z with 62%Z in *. change (Z.to_nat 62) with 62%nat in *.
  change (16 * 62)%nat with 992%nat in Hlen. simpl in Hlen.
  destruct (train_model_cases X yt w0) as (acc_t & w1 & Et & _ & -> & Ht).
  destruct (train_condition_model_cases X yc w1) as (acc_c & w2 & Ec & _ & -> & Hc).
  exists X, yt, yc, w0, w1, w2. cbv zeta.
  set (acc_t := returned_accuracy (type_training w0 X yt)) in *.
  set (acc_c := returned_accuracy (cond_training w1 X yc)) in *.
  assert (auto_train w = (Ret (Qgtb acc_t (lit 0.6) && Qgtb acc_c (lit 0.6)), w2)) as Ea.
  { unfold auto_train, mtry. unfold mbind at 1. rewrite E. cbv beta iota.
    rewrite Hlen. change (992 =? 0)%nat with false. cbv iota.
    unfold mbind. rewrite Et, Ec. reflexivity. }
  repeat (split; [assumption|]).
  intros Hlit. rewrite Ea. cbn [fst]. split.
  - intros [= Hb]. apply andb_true_iff in Hb. destruct Hb as [H1 H2].
    subst acc_t acc_c.
    destruct (type_training w0 X yt) as [[[st clf] r]|];
      [|cbn in H1; rewrite Qgtb_zero_false in H1 by exact Hlit; discriminate H1].
    destruct (cond_training w1 X yc) as [[[st' clf'] r']|];
      [|cbn in H2; rewrite Qgtb_zero_false in H2 by exact Hlit; discriminate H2].
    exists st, clf, r, st', clf', r'. cbn in H1, H2.
    repeat split; try reflexivity; apply Qgtb_true; assumption.
  - intros (st & clf & r & st' & clf' & r' & Ht' & Hr & Hc' & Hr').
    subst acc_t acc_c. rewrite Ht', Hc'. cbn.
    apply Qgtb_true in Hr, Hr'. rewrite Hr, Hr'. reflexivity.
Qed.
End TrainingFacts.

Section PredictFacts.
Context {R : Rounding} {npr : NpRandom} {sk : Sklearn} {ps : PyStr}.

Lemma path_exists_none (p : string) (w : World) :
  disk w !! p = None -> path_exists p w = (Ret false, w).
Proof.
  intros H. unfold path_exists. rewrite H.
  rewrite bool_decide_eq_false_2; [reflexivity|]. intros [x Hx]. discriminate Hx.
Qed.

Lemma load_model_absent (w : World) :
  disk w !! model_path (self w) = None -> _load_model w = (Ret tt, w).
Proof.
  intros H. unfold _load_model, mtry, mget. unfold mbind at 1. cbv beta iota.
  unfold mbind at 1. rewrite (path_exists_none _ _ H). cbv beta iota.
  unfold mbind at 1. destruct (path_exists (scaler_path (self w)) w) as [[b|e] w1] eqn:E.
  - unfold path_exists in E. injection E as <- <-. reflexivity.
  - unfold path_exists in E. discriminate E.
Qed.

Lemma load_cond_model_absent (w : World) :
  disk w !! cond_model_path (self w) = None -> _load_cond_model w = (Ret tt, w).
Proof.
  intros H. unfold _load_cond_model, mtry, mget. unfold mbind at 1. cbv beta iota.
  unfold mbind at 1. rewrite (path_exists_none _ _ H). cbv beta iota.
  unfold mbind at 1. destruct (path_exists (cond_scaler_path (self w)) w) as [[b|e] w1] eqn:E.
  - unfold path_exists in E. injection E as <- <-. reflexivity.
  - unfold path_exists in E. discriminate E.
Qed.

Lemma init_without_model_files (mp cmp : string) (w : World) :
  disk w !! mp = None -> disk w !! cmp = None ->
  exists w', __init__ mp cmp w = (Ret tt, w') /\
             model (self w') = PyNone /\ cond_model (self w') = PyNone /\
             is_trained (self w') = false /\ is_cond_trained (self w') = false.
Proof.
  intros Hm Hc.
  unfold __init__, mmodify. unfold mbind at 1. cbv beta iota.
  unfold mbind at 1. rewrite load_model_absent by exact Hm. cbv beta iota.
  rewrite load_cond_model_absent by exact Hc.
  eexists. split; [reflexivity|]. simpl. repeat split.
Qed.

(** C5 (amended): a predictor returns the model-not-trained error dict when
    its trained flag is unset or no classifier is loaded, in particular on
    an object constructed without model files; it returns the
    scaler-not-fitted error dict when the flag is set, a classifier is
    loaded and the scaler has no statistics.  The error is a returned
    dict, never a label. *)
Theorem predict_error_results (a : SkinAnalyzer) (X : ndarray) :
  (is_trained a = false \/ model a = PyNone ->
   predict_skin_type a X = Ret (Error "Model chưa được huấn luyện")) /\
  (is_trained a = true -> model a <> PyNone -> hasattr_scale_ (scaler a) = false ->
   predict_skin_type a X = Ret (Error "Bộ chuẩn hóa (scaler) chưa được huấn luyện")) /\
  (is_cond_trained a = false \/ cond_model a = PyNone ->
   predict_skin_condition a X = Ret (Error "Model tình trạng da chưa được huấn luyện")) /\
  (is_cond_trained a = true -> cond_model a <> PyNone ->
   hasattr_scale_ (cond_scaler a) = false ->
   predict_skin_condition a X =
     Ret (Error "Bộ chuẩn hóa (scaler) cho tình trạng da chưa được huấn luyện")) /\
  (forall (mp cmp : string) (w : World),
     disk w !! mp = None -> disk w !! cmp = None ->
     exists w', __init__ mp cmp w = (Ret tt, w') /\
       predict_skin_type (self w') X = Ret (Error "Model chưa được huấn luyện") /\
       predict_skin_condition (self w') X = Ret (Error "Model tình trạng da chưa được huấn luyện")).
Proof.
  assert (forall b, is_trained b = false \/ model b = PyNone ->
            predict_skin_type b X = Ret (Error "Model chưa được huấn luyện")) as Ht.
  { intros b H. unfold predict_skin_type.
    destruct (is_trained b), (model b); destruct H as [H|H]; try discriminate H; reflexivity. }
  assert (forall b, is_cond_trained b = false \/ cond_model b = PyNone ->
            predict_skin_condition b X = Ret (Error "Model tình trạng da chưa được huấn luyện")) as Hc.
  { intros b H. unfold predict_skin_condition.
    destruct (is_cond_trained b), (cond_model b); destruct H as [H|H]; try discriminate H;
      reflexivity. }
  split; [apply Ht|]. split; [|split; [apply Hc|split]].
  - intros H1 H2 H3. unfold predict_skin_type. rewrite H1, H3.
    destruct (model a); [congruence|reflexivity..].
  - intros H1 H2 H3. unfold predict_skin_condition. rewrite H1, H3.
    destruct (cond_model a); [congruence|reflexivity..].
  - intros mp cmp w Hm Hcm.
    destruct (init_without_model_files mp cmp w Hm Hcm) as (w' & E & Hmod & Hcmod & _).
    exists w'. split; [exact E|]. split; [apply Ht|apply Hc]; right; assumption.
Qed.
End PredictFacts.

 
Section Rows.
Context {R : Rounding}.

Lemma standardize_length (s : scaler_stats) (row : list Q) :
  scaler_ok s -> length row = 18%nat -> length (standardize s row) = 18%nat.
Proof.
  intros [Hm Hs] Hr. unfold standardize.
  rewrite length_zip_with, length_combine, Hm, Hs, Hr. reflexivity.
Qed.

Lemma check_n_features_one (n : nat) (row : list Q) :
  length row = n -> check_n_features n [row] = Ret [row].
Proof.
  intros H. unfold check_n_features. simpl. rewrite H, Nat.eqb_refl. reflexivity.
Qed.

Lemma transform_one_row (s : scaler_stats) (X : ndarray) :
  scaler_ok s -> shape X = [1%nat; 18%nat] -> length (data X) = 18%nat ->
  scaler_transform s X = Ret [standardize s (data X)].
Proof.
  intros Hs Hsh Hd. unfold scaler_transform, check_array. rewrite Hsh.
  cbn [Nat.eqb orb obind]. unfold rows_of. cbn [seq map].
  change (0 * 18)%nat with 0%nat. rewrite drop_0, take_ge by lia.
  unfold transform_rows.
  destruct Hs as [Hm _]. rewrite Hm, check_n_features_one by exact Hd. reflexivity.
Qed.

Lemma predict_proba_one (clf : RandomForestClassifier) (f : forest) (row : list Q) :
  fitted clf = Some f -> forest_ok f -> length row = 18%nat ->
  predict_proba clf [row] = Ret [proba_of f row].
Proof.
  intros Hf (Hn & _) Hr. unfold predict_proba. rewrite Hf, Hn.
  rewrite check_n_features_one by exact Hr. reflexivity.
Qed.

(** [argmax] points at an entry that no entry exceeds. *)
Lemma argmax_from_spec (l : list Q) (best : Q) (ibest i : nat) (pre : list Q) :
  pre !! ibest = Some best -> length pre = i ->
  (forall x, x ∈ pre -> (x <= best)%Q) ->
  exists m, (pre ++ l) !! argmax_from best ibest i l = Some m /\
            forall x, x ∈ pre ++ l -> (x <= m)%Q.
Proof.
  revert best ibest i pre. induction l as [|y l IH]; intros best ibest i pre Hb Hlen Hmax.
  - simpl. exists best. rewrite app_nil_r. split; assumption.
  - simpl. destruct (Qgtb y best) eqn:E.
    + apply Qgtb_true in E.
      destruct (IH y i (S i) (pre ++ [y])) as (m & Hm & Hall).
      * rewrite lookup_app_r by lia. rewrite Hlen, Nat.sub_diag. reflexivity.
      * rewrite length_app. simpl. lia.
      * intros x Hx. apply elem_of_app in Hx. destruct Hx as [Hx|Hx].
        -- apply Qle_trans with best; [apply Hmax, Hx|apply Qlt_le_weak, E].
        -- apply list_elem_of_singleton in Hx. subst. apply Qle_refl.
      * exists m. rewrite <- app_assoc in Hm, Hall. split; assumption.
    + assert (y <= best)%Q as Hy.
      { unfold Qgtb in E. apply negb_false_iff in E. apply Qle_bool_iff. exact E. }
      destruct (IH best ibest (S i) (pre ++ [y])) as (m & Hm & Hall).
      * rewrite lookup_app_l; [exact Hb|]. apply lookup_lt_Some in Hb. exact Hb.
      * rewrite length_app. simpl. lia.
      * intros x Hx. apply elem_of_app in Hx. destruct Hx as [Hx|Hx].
        -- apply Hmax, Hx.
        -- apply list_elem_of_singleton in Hx. subst. exact Hy.
      * exists m. rewrite <- app_assoc in Hm, Hall. split; assumption.
Qed.

Lemma argmax_spec (l : list Q) :
  l <> [] -> exists m, l !! argmax l = Some m /\ forall x, x ∈ l -> (x <= m)%Q.
Proof.
  destruct l as [|x l]; [congruence|]. intros _. unfold argmax.
  apply (argmax_from_spec l x 0%nat 1%nat [x]); [reflexivity|reflexivity|].
  intros y Hy. apply list_elem_of_singleton in Hy. subst. apply Qle_refl.
Qed.
End Rows.

Lemma Qsum_perm (l1 l2 : list Q) : l1 ≡ₚ l2 -> (Qsum l1 == Qsum l2)%Q.
Proof.
  induction 1 as [|x l1 l2 _ IH|x y l|l1 l2 l3 _ IH1 _ IH2]; simpl.
  - reflexivity.
  - rewrite IH. reflexivity.
  - ring.
  - rewrite IH1. exact IH2.
Qed.

Lemma dict_sum_insert (m : gmap string Q) (k : string) (v : Q) :
  m !! k = None -> (dict_sum (<[k := v]> m) == v + dict_sum m)%Q.
Proof.
  intros H. unfold dict_sum.
  rewrite (Qsum_perm _ (snd <$> ((k, v) :: map_to_list m))).
  - reflexivity.
  - apply fmap_Permutation, map_to_list_insert, H.
Qed.

(** The dict built from four distinct keys. *)
Lemma four_entries (k0 k1 k2 k3 : string) (p0 p1 p2 p3 : Q) :
  NoDup [k0; k1; k2; k3] ->
  let m : gmap string Q := <[k3 := p3]> (<[k2 := p2]> (<[k1 := p1]> (<[k0 := p0]> ∅))) in
  size m = 4%nat /\
  (dict_sum m == Qsum [p0; p1; p2; p3])%Q /\
  (forall k v, m !! k = Some v -> v ∈ [p0; p1; p2; p3]) /\
  m !! k0 = Some p0 /\ m !! k1 = Some p1 /\ m !! k2 = Some p2 /\ m !! k3 = Some p3.
Proof.
  intros Hnd m.
  apply NoDup_cons in Hnd as [H0 Hnd]. apply NoDup_cons in Hnd as [H1 Hnd].
  apply NoDup_cons in Hnd as [H2 _].
  assert (k0 <> k1 /\ k0 <> k2 /\ k0 <> k3 /\ k1 <> k2 /\ k1 <> k3 /\ k2 <> k3) as (N01 & N02 & N03 & N12 & N13 & N23).
  { repeat split; intros E; subst; rewrite ?not_elem_of_cons in *; intuition congruence. }
  assert ((∅ : gmap string Q) !! k0 = None) as E0 by apply lookup_empty.
  assert ((<[k0 := p0]> (∅ : gmap string Q)) !! k1 = None) as E1
    by (rewrite lookup_insert_ne by exact N01; apply lookup_empty).
  assert ((<[k1 := p1]> (<[k0 := p0]> (∅ : gmap string Q))) !! k2 = None) as E2
    by (rewrite !lookup_insert_ne by congruence; apply lookup_empty).
  assert ((<[k2 := p2]> (<[k1 := p1]> (<[k0 := p0]> (∅ : gmap string Q)))) !! k3 = None) as E3
    by (rewrite !lookup_insert_ne by congruence; apply lookup_empty).
  unfold m. split; [|split; [|split]].
  - rewrite !map_size_insert_None by assumption. rewrite map_size_empty. reflexivity.
  - rewrite !dict_sum_insert by assumption. unfold dict_sum.
    rewrite map_to_list_empty. simpl. ring.
  - intros k v Hk.
    repeat (apply lookup_insert_Some in Hk; destruct Hk as [[_ <-]|[_ Hk]];
            [rewrite !elem_of_cons; tauto|]).
    rewrite lookup_empty in Hk. discriminate Hk.
  - repeat split.
    + rewrite !lookup_insert_ne by congruence. apply lookup_insert_eq.
    + rewrite !lookup_insert_ne by congruence. apply lookup_insert_eq.
    + rewrite !lookup_insert_ne by congruence. apply lookup_insert_eq.
    + apply lookup_insert_eq.
Qed.

Lemma np_max_spec (l : list Q) :
  l <> [] -> exists c, np_max l = Ret c /\ c ∈ l /\ forall x, x ∈ l -> (x <= c)%Q.
Proof.
  destruct l as [|a l]; [congruence|]. intros _. unfold np_max.
  exists (fold_left np_maximum l a). split; [reflexivity|].
  assert (forall pre, a ∈ pre -> (forall x, x ∈ pre -> (x <= a)%Q) ->
            fold_left np_maximum l a ∈ pre ++ l /\
            forall x, x ∈ pre ++ l -> (x <= fold_left np_maximum l a)%Q) as H.
  { revert a. induction l as [|y l IH]; intros a pre Ha Hmax.
    - simpl. rewrite app_nil_r. split; assumption.
    - simpl. unfold np_maximum at 2 4. destruct (Qle_bool a y) eqn:E.
      + apply Qle_bool_iff in E.
        destruct (IH y (pre ++ [y])) as [H1 H2].
        * apply elem_of_app. right. apply list_elem_of_singleton. reflexivity.
        * intros x Hx. apply elem_of_app in Hx. destruct Hx as [Hx|Hx].
          -- apply Qle_trans with a; [apply Hmax, Hx|exact E].
          -- apply list_elem_of_singleton in Hx. subst. apply Qle_refl.
        * rewrite <- app_assoc in H1, H2. split; assumption.
      + assert (y <= a)%Q as Hy.
        { destruct (Qlt_le_dec y a) as [Hlt|Hle]; [apply Qlt_le_weak, Hlt|].
          apply Qle_bool_iff in Hle. congruence. }
        destruct (IH a (pre ++ [y])) as [H1 H2].
        * apply elem_of_app. left. exact Ha.
        * intros x Hx. apply elem_of_app in Hx. destruct Hx as [Hx|Hx].
          -- apply Hmax, Hx.
          -- apply list_elem_of_singleton in Hx. subst. exact Hy.
        * rewrite <- app_assoc in H1, H2. split; assumption. }
  destruct (H [a]) as [H1 H2].
  - apply list_elem_of_singleton. reflexivity.
  - intros x Hx. apply list_elem_of_singleton in Hx. subst. apply Qle_refl.
  - split; assumption.
Qed.


Section Predictions.
Context {R : Rounding} {ps : PyStr}.

Lemma type_names_distinct :
  NoDup ["Da khô"; "Da dầu"; "Da hỗn hợp"; "Da nhạy cảm"]%string.
Proof.
  repeat (apply NoDup_cons; split); try apply NoDup_nil_2;
    rewrite ?not_elem_of_cons; repeat split; try discriminate; apply not_elem_of_nil.
Qed.

Lemma cond_names_distinct :
  NoDup ["Bình thường"; "Mụn"; "Nám/tàn nhang"; "Lỗ chân lông to"]%string.
Proof.
  repeat (apply NoDup_cons; split); try apply NoDup_nil_2;
    rewrite ?not_elem_of_cons; repeat split; try discriminate; apply not_elem_of_nil.
Qed.

Lemma tolerance_transfer (a b : Q) :
  (a == b)%Q -> (Qabs (b - 1) <= tolerance)%Q -> (Qabs (a - 1) <= tolerance)%Q.
Proof. intros H Hb. rewrite H. exact Hb. Qed.

Lemma predict_skin_type_ready (a : SkinAnalyzer) (X : ndarray) :
  type_ready a -> nd_size X = 18%nat -> length (data X) = 18%nat ->
  exists p, predict_skin_type a X = Ret (Success p) /\ good_type_prediction p.
Proof.
  intros (Htr & clf & f & sc & Hm & Hf & Hok & Hs & Hsc) Hsize Hdata.
  unfold predict_skin_type. rewrite Htr, Hm, Hs.
  cbn [negb orb is_none hasattr_scale_ obj_transform obj_predict obj_predict_proba].
  rewrite (transform_one_row sc (reshape_1_m1 X) Hsc);
    [|unfold reshape_1_m1; simpl; rewrite Hsize; reflexivity|exact Hdata].
  cbn [obind data reshape_1_m1].
  assert (length (standardize sc (data X)) = 18%nat) as Hrow
    by (apply standardize_length; assumption).
  unfold predict. rewrite Hf.
  rewrite (predict_proba_one clf f _ Hf Hok Hrow). cbn [obind omap_list].
  destruct Hok as (_ & Hcl & Hp). rewrite Hcl.
  destruct (Hp (standardize sc (data X))) as [Hlen Hsum].
  destruct (proba_of f (standardize sc (data X))) as [|p0 [|p1 [|p2 [|p3 [|]]]]];
    try discriminate Hlen. clear Hlen.
  destruct (argmax_spec [p0; p1; p2; p3]) as (m & Hi & Hmax); [discriminate|].
  pose proof (four_entries _ _ _ _ p0 p1 p2 p3 type_names_distinct)
    as (Hsz & Hds & Hin & H0 & H1 & H2 & H3).
  pose proof (lookup_lt_Some _ _ _ Hi) as Hlt. cbn [length] in Hlt.
  destruct (argmax [p0; p1; p2; p3]) as [|[|[|[|]]]]; try lia; clear Hlt;
    cbn in Hi; injection Hi as <-;
    (eexists {| skin_type := _; skin_type_code := _; confidence := _;
                all_probabilities := _; description := _ |};
     split; [reflexivity|];
     unfold good_type_prediction; cbn [all_probabilities skin_type confidence skin_type_code];
     split; [exact Hsz|];
     split; [exact (tolerance_transfer _ _ Hds Hsum)|];
     split; [reflexivity|];
     split; [assumption|];
     intros k v Hk; apply Hmax, (Hin k v), Hk).
Qed.

Lemma predict_skin_condition_ready (a : SkinAnalyzer) (X : ndarray) :
  cond_ready a -> shape X = [1%nat; 18%nat] -> length (data X) = 18%nat ->
  exists p, predict_skin_condition a X = Ret (Success p) /\ good_cond_prediction p.
Proof.
  intros (Htr & clf & f & sc & Hm & Hf & Hok & Hs & Hsc) Hshape Hdata.
  unfold predict_skin_condition. rewrite Htr, Hm, Hs.
  cbn [negb orb is_none hasattr_scale_ obj_transform obj_predict obj_predict_proba].
  rewrite (transform_one_row sc X Hsc Hshape Hdata).
  cbn [obind].
  assert (length (standardize sc (data X)) = 18%nat) as Hrow
    by (apply standardize_length; assumption).
  unfold predict. rewrite Hf.
  rewrite (predict_proba_one clf f _ Hf Hok Hrow). cbn [obind omap_list].
  destruct Hok as (_ & Hcl & Hp). rewrite Hcl.
  destruct (Hp (standardize sc (data X))) as [Hlen Hsum].
  destruct (proba_of f (standardize sc (data X))) as [|p0 [|p1 [|p2 [|p3 [|]]]]];
    try discriminate Hlen. clear Hlen.
  destruct (argmax_spec [p0; p1; p2; p3]) as (m & Hi & Hmax); [discriminate|].
  destruct (np_max_spec [p0; p1; p2; p3]) as (c & Hc & Hcin & Hcmax); [discriminate|].
  pose proof (four_entries _ _ _ _ p0 p1 p2 p3 cond_names_distinct)
    as (Hsz & Hds & Hin & H0 & H1 & H2 & H3).
  assert (c == m)%Q as Hcm.
  { apply Qle_antisym; [apply Hmax, Hcin|].
    apply Hcmax. eapply list_elem_of_lookup_2. exact Hi. }
  pose proof (lookup_lt_Some _ _ _ Hi) as Hlt. cbn [length] in Hlt.
  unfold np_max in Hc. injection Hc as <-.
  destruct (argmax [p0; p1; p2; p3]) as [|[|[|[|]]]]; try lia; clear Hlt;
    cbn in Hi; injection Hi as <-;
    (eexists {| skin_condition := _; cond_confidence := _; cond_all_probabilities := _ |};
     split; [reflexivity|];
     unfold good_cond_prediction;
     cbn [cond_all_probabilities skin_condition cond_confidence];
     split; [exact Hsz|];
     split; [exact (tolerance_transfer _ _ Hds Hsum)|];
     split; [eexists; split; [eassumption|exact Hcm]|];
     intros k v Hk; apply Hcmax, (Hin k v), Hk).
Qed.






End Predictions.


(** ** Care tips, the analysis of a face, the demo *)

Section Consumers.
Context {R : Rounding} {cv : Cv2} {np : Numpy} {npr : NpRandom} {sk : Sklearn} {ps : PyStr}.

Lemma extract_returns_18 (img : image) (x y w h : Z) :
  exists v, extract_skin_features img (x, y, w, h) = Ret v /\ length v = 18%nat.
Proof.
  unfold extract_skin_features.
  destruct (extract_body img (x, y, w, h)) as [v|e] eqn:E; simpl.
  - exists v. split; [reflexivity|].
    apply extract_body_inv in E. destruct E as (g & d & o & Hlen & _). exact Hlen.
  - exists zeros18. split; reflexivity.
Qed.

(** What a successful skin-type prediction holds. *)
Lemma predict_skin_type_success (a : SkinAnalyzer) (X : ndarray) (p : type_prediction) :
  predict_skin_type a X = Ret (Success p) ->
  is_trained a = true /\ model a <> PyNone /\ hasattr_scale_ (scaler a) = true /\
  skin_types !! skin_type_code p = Some (skin_type p) /\
  skin_descriptions !! skin_type p = Some (description p).
Proof.
  unfold predict_skin_type.
  destruct (is_trained a); [|discriminate].
  destruct (is_none (model a)) eqn:Hn; [discriminate|]. cbn [negb orb].
  destruct (hasattr_scale_ (scaler a)) eqn:Hs; [|discriminate]. cbn [negb].
  destruct (obj_transform (scaler a) (reshape_1_m1 X)) as [fs|?]; [|discriminate]. cbn [obind].
  destruct (obj_predict (model a) fs) as [preds|?]; [|discriminate]. cbn [obind].
  destruct (py_index preds 0) as [prediction|?]; [|discriminate]. cbn [obind].
  destruct (obj_predict_proba (model a) fs) as [probas|?]; [|discriminate]. cbn [obind].
  destruct (py_index probas 0) as [probabilities|?]; [|discriminate]. cbn [obind].
  unfold dict_get at 1.
  destruct (skin_types !! prediction) as [name|] eqn:Hname; [|discriminate]. cbn [obind].
  destruct (py_index probabilities prediction) as [conf|?]; [|discriminate]. cbn [obind].
  destruct (proba_dict skin_types probabilities) as [d|?]; [|discriminate]. cbn [obind].
  unfold dict_get.
  destruct (skin_descriptions !! name) as [desc|] eqn:Hdesc; [|discriminate]. cbn [obind try_except].
  intros [= <-]. cbn. repeat split; try assumption.
  intros E. rewrite E in Hn. discriminate Hn.
Qed.

Lemma skin_type_names (code : Z) (name : string) :
  skin_types !! code = Some name ->
  name ∈ ["Da khô"; "Da dầu"; "Da hỗn hợp"; "Da nhạy cảm"]%string.
Proof.
  intros H. unfold skin_types in H. apply elem_of_list_to_map_2 in H.
  rewrite !elem_of_cons in H. rewrite !elem_of_cons.
  destruct H as [H|[H|[H|[H|H]]]]; try (injection H as _ ->; tauto).
  apply elem_of_nil in H. destruct H.
Qed.

(** A skin type that [predict_skin_type] reports is one of the four names
    [get_skin_care_tips] knows: it gets its five tips, never the fallback,
    and the description reported is the one of that name. *)
Theorem predicted_type_has_tips (a : SkinAnalyzer) (X : ndarray) (p : type_prediction) :
  predict_skin_type a X = Ret (Success p) ->
  skin_care_tips !! skin_type p = Some (get_skin_care_tips (skin_type p)) /\
  length (get_skin_care_tips (skin_type p)) = 5%nat /\
  skin_descriptions !! skin_type p = Some (description p).
Proof.
  intros H. apply predict_skin_type_success in H.
  destruct H as (_ & _ & _ & Hname & Hdesc).
  split; [|split; [|exact Hdesc]];
    apply skin_type_names in Hname; rewrite !elem_of_cons in Hname;
    destruct Hname as [->|[->|[->|[->|Hn]]]]; try reflexivity;
    apply elem_of_nil in Hn; destruct Hn.
Qed.

(** The analysis of a face as [main_app.py] runs it: with both models in
    place, whatever the image and the rectangle, extraction followed by
    [reshape(1, -1)] gives both predictors an input they accept, and both
    results are well formed. *)
Theorem analyze_skin_ready (a : SkinAnalyzer) (img : image) (x y w h : Z) :
  type_ready a -> cond_ready a ->
  exists p q,
    analyze_skin a img (x, y, w, h) = Ret (Success p, Success q) /\
    good_type_prediction p /\ good_cond_prediction q.
Proof.
  intros Ht Hc.
  destruct (extract_returns_18 img x y w h) as (v & Hv & Hlen).
  unfold analyze_skin. rewrite Hv. cbn [obind].
  assert (nd_size (as_array v) = 18%nat) as Hsize
    by (unfold nd_size, as_array; cbn [shape foldr]; lia).
  assert (shape (reshape_1_m1 (as_array v)) = [1%nat; 18%nat]) as Hshape
    by (unfold reshape_1_m1; cbn [shape]; rewrite Hsize; reflexivity).
  assert (nd_size (reshape_1_m1 (as_array v)) = 18%nat) as Hsize'
    by (unfold nd_size; rewrite Hshape; reflexivity).
  destruct (predict_skin_type_ready a (reshape_1_m1 (as_array v)) Ht Hsize' Hlen)
    as (p & Hp & Hgp).
  destruct (predict_skin_condition_ready a (reshape_1_m1 (as_array v)) Hc Hshape Hlen)
    as (q & Hq & Hgq).
  exists p, q. rewrite Hp, Hq. split; [reflexivity|]. split; assumption.
Qed.

Lemma load_model_returns (w : World) : exists w', _load_model w = (Ret tt, w').
Proof.
  unfold _load_model.
  match goal with
  | |- context [mtry ?body _ _] =>
      destruct (mtry_returns (S := World) (A := unit) body tt w) as ([] & w' & E)
  end.
  exists w'. exact E.
Qed.

Lemma load_cond_model_returns (w : World) : exists w', _load_cond_model w = (Ret tt, w').
Proof.
  unfold _load_cond_model.
  match goal with
  | |- context [mtry ?body _ _] =>
      destruct (mtry_returns (S := World) (A := unit) body tt w) as ([] & w' & E)
  end.
  exists w'. exact E.
Qed.

Lemma init_returns (mp cmp : string) (w : World) :
  exists w', __init__ mp cmp w = (Ret tt, w').
Proof.
  unfold __init__. unfold mbind at 1. unfold mmodify at 1. cbv beta iota.
  unfold mbind at 1.
  match goal with |- context [_load_model ?s] =>
    destruct (load_model_returns s) as (w1 & ->) end.
  cbv beta iota. apply load_cond_model_returns.
Qed.

(** [test_skin_analyzer] unpacks the three arrays of
    [generate_synthetic_data] into two names. *)
Theorem demo_skin_test_returns_false (importable : bool) (w : World) :
  fst (test_skin_analyzer importable w) = Ret false.
Proof.
  unfold test_skin_analyzer, mtry. destruct importable; [|reflexivity].
  unfold mbind at 1.
  destruct (init_returns "skin_type_model.pkl" "skin_condition_model.pkl" w) as (w1 & ->).
  cbv beta iota. unfold mbind at 1.
  destruct (generate_spec 100 w1) as (ds & w2 & -> & _).
  cbv beta iota. reflexivity.
Qed.
End Consumers.


(** ** Training, persistence and loading *)

Section Persistence.
Context {R : Rounding} {npr : NpRandom} {sk : Sklearn} {ps : PyStr}.

Lemma path_exists_some (p : string) (w : World) (f : file) :
  disk w !! p = Some f -> path_exists p w = (Ret true, w).
Proof.
  intros H. unfold path_exists. rewrite H.
  rewrite bool_decide_eq_true_2; [reflexivity|]. exists f. reflexivity.
Qed.

Lemma load_model_cases (w : World) :
  exists w', _load_model w = (Ret tt, w') /\ disk w' = disk w /\ type_frame w w' /\
             loaded_as w w'.
Proof.
  unfold _load_model, mtry, loaded_as. unfold mbind at 1. unfold mget at 1. cbv beta iota.
  unfold mbind at 1.
  destruct (disk w !! model_path (self w)) as [fm|] eqn:Hm.
  - rewrite (path_exists_some _ _ _ Hm). cbv beta iota. unfold mbind at 1.
    destruct (disk w !! scaler_path (self w)) as [fs|] eqn:Hs.
    + rewrite (path_exists_some _ _ _ Hs). cbv beta iota. cbn [andb].
      unfold mbind at 1. unfold joblib_load at 1. rewrite Hm.
      destruct fm as [m|]; cbv beta iota;
        [unfold mbind at 1; unfold mmodify at 1; cbv beta iota;
         unfold mbind at 1; unfold joblib_load at 1; cbn [disk with_self]; rewrite Hs|];
        destruct fs as [s|];
        eexists; (split; [reflexivity|]); repeat split; reflexivity.
    + rewrite (path_exists_none _ _ Hs). cbv beta iota. cbn [andb negb].
      unfold mmodify. eexists. split; [reflexivity|].
      destruct fm; repeat split; reflexivity.
  - rewrite (path_exists_none _ _ Hm). cbv beta iota. unfold mbind at 1.
    destruct (path_exists (scaler_path (self w)) w) as [[b|e] w1] eqn:E;
      unfold path_exists in E; [injection E as <- <-|discriminate E].
    cbv beta iota. cbn [andb]. eexists. split; [reflexivity|].
    destruct (disk w !! scaler_path (self w)); repeat split; reflexivity.
Qed.

(** [_load_cond_model] does not touch the skin-type side or the disk. *)
Lemma load_cond_model_frame (w : World) :
  exists w', _load_cond_model w = (Ret tt, w') /\ disk w' = disk w /\
             model (self w') = model (self w) /\ scaler (self w') = scaler (self w) /\
             is_trained (self w') = is_trained (self w) /\
             model_path (self w') = model_path (self w) /\
             scaler_path (self w') = scaler_path (self w).
Proof.
  unfold _load_cond_model, mtry. unfold mbind at 1. unfold mget at 1. cbv beta iota.
  unfold mbind at 1. unfold path_exists at 1. cbv beta iota.
  unfold mbind at 1. unfold path_exists at 1. cbv beta iota.
  destruct (bool_decide (is_Some (disk w !! cond_model_path (self w))));
    destruct (bool_decide (is_Some (disk w !! cond_scaler_path (self w)))); cbn [andb negb];
    try (eexists; split; [reflexivity|]; repeat split; reflexivity).
  unfold mbind at 1. unfold joblib_load at 1.
  destruct (disk w !! cond_model_path (self w)) as [[m|]|]; cbv beta iota;
    try (eexists; split; [reflexivity|]; repeat split; reflexivity).
  unfold mbind at 1. unfold mmodify at 1. cbv beta iota.
  unfold mbind at 1. unfold joblib_load at 1. cbn [disk with_self].
  destruct (disk w !! cond_scaler_path (self w)) as [[s|]|];
    eexists; (split; [reflexivity|]); repeat split; reflexivity.
Qed.


Lemma init_cases (mp cmp : string) (w : World) :
  exists w', __init__ mp cmp w = (Ret tt, w') /\ disk w' = disk w /\
    (is_trained (self w') = true <->
     exists m s, disk w !! mp = Some (FPickle m) /\
                 disk w !! "skin_type_scaler.pkl"%string = Some (FPickle s)) /\
    (forall m s, disk w !! mp = Some (FPickle m) ->
                 disk w !! "skin_type_scaler.pkl"%string = Some (FPickle s) ->
                 model (self w') = m /\ scaler (self w') = s) /\
    (disk w !! "skin_type_scaler.pkl"%string = None ->
     model (self w') = PyNone /\ is_trained (self w') = false).
Proof.
  unfold __init__. unfold mbind at 1. unfold mmodify at 1. cbv beta iota.
  unfold mbind at 1.
  match goal with |- context [_load_model ?s] =>
    destruct (load_model_cases s) as (w1 & -> & Hd1 & _ & Hl) end.
  cbv beta iota.
  destruct (load_cond_model_frame w1) as (w2 & -> & Hd2 & Hm2 & Hs2 & Ht2 & _).
  exists w2. split; [reflexivity|]. split; [rewrite Hd2, Hd1; reflexivity|].
  rewrite Hm2, Hs2, Ht2. unfold loaded_as in Hl. cbn in Hl.
  destruct (disk w !! mp) as [[m|]|]; destruct (disk w !! "skin_type_scaler.pkl"%string) as [[s|]|];
    destruct Hl as (Hm & Hs & Ht); rewrite Hm, Hs, Ht;
    (split; [split; [try discriminate; intros _; eexists _, _; split; reflexivity
                    |intros (m' & s' & Hm' & Hs'); try discriminate; reflexivity]|]);
    (split; [intros m' s' Hm' Hs'; try discriminate; injection Hm' as <-; injection Hs' as <-;
             split; reflexivity|]);
    intros Hn; try discriminate; split; reflexivity.
Qed.

(** The constructor always returns and leaves the disk as it was.  It
    sets the trained flag exactly when the model path and the scaler path
    both hold a readable pickle, and then holds whatever the two pickles
    hold, of whatever class; with no scaler file the object holds no
    model and is untrained. *)
Theorem init_trained_iff_both_files (mp cmp : string) (w : World) :
  exists w', __init__ mp cmp w = (Ret tt, w') /\ disk w' = disk w /\
    (is_trained (self w') = true <->
     exists m s, disk w !! mp = Some (FPickle m) /\
                 disk w !! "skin_type_scaler.pkl"%string = Some (FPickle s)) /\
    (forall m s, disk w !! mp = Some (FPickle m) ->
                 disk w !! "skin_type_scaler.pkl"%string = Some (FPickle s) ->
                 model (self w') = m /\ scaler (self w') = s) /\
    (disk w !! "skin_type_scaler.pkl"%string = None ->
     model (self w') = PyNone /\ is_trained (self w') = false).
Proof. apply init_cases. Qed.

Lemma predict_skin_type_ext (a b : SkinAnalyzer) (X : ndarray) :
  is_trained a = is_trained b -> model a = model b -> scaler a = scaler b ->
  predict_skin_type a X = predict_skin_type b X.
Proof. intros H1 H2 H3. unfold predict_skin_type. rewrite H1, H2, H3. reflexivity. Qed.

(** A model that training has just written is the model a new object
    loads: same classifier, same scaler, flag set, same predictions. *)
Theorem trained_model_survives_reload
  (features : matrix) (labels : list Z) (w w' : World) (r : Q) :
  train_model features labels w = (Ret r, w') ->
  is_trained (self w) = false -> is_trained (self w') = true ->
  scaler_path (self w) = "skin_type_scaler.pkl"%string ->
  model_path (self w) <> scaler_path (self w) ->
  exists w'',
    __init__ (model_path (self w)) (cond_model_path (self w)) w' = (Ret tt, w'') /\
    model (self w'') = model (self w') /\ scaler (self w'') = scaler (self w') /\
    is_trained (self w'') = true /\
    forall X, predict_skin_type (self w'') X = predict_skin_type (self w') X.
Proof.
  intros E Hbefore Hafter Hsp Hne.
  destruct (train_model_cases features labels w) as (r0 & w0 & E0 & _ & _ & Hout).
  rewrite E in E0. injection E0 as <- <-.
  unfold type_outcome in Hout.
  destruct (type_training w features labels) as [[[st clf] acc]|];
    [|destruct Hout as [Hflag _]; congruence].
  destruct Hout as (Hm & _ & _ & _ & Hs & _ & Hd).
  destruct (init_cases (model_path (self w)) (cond_model_path (self w)) w')
    as (w'' & Ei & _ & Hiff & Hload & _).
  exists w''. split; [exact Ei|].
  assert (disk w' !! model_path (self w) = Some (FPickle (Forest clf))) as Hfm.
  { rewrite Hd. rewrite lookup_insert_ne by congruence. apply lookup_insert_eq. }
  assert (disk w' !! "skin_type_scaler.pkl"%string = Some (FPickle (Scaler (Some st)))) as Hfs.
  { rewrite Hd, Hsp. apply lookup_insert_eq. }
  destruct (Hload _ _ Hfm Hfs) as [Hm'' Hs''].
  assert (is_trained (self w'') = true) as Ht''
    by (apply Hiff; eexists _, _; split; eassumption).
  split; [congruence|]. split; [congruence|]. split; [exact Ht''|].
  intros X. apply predict_skin_type_ext; congruence.
Qed.

(** When [auto_train] answers [True], both flags are set and both sides
    hold a fitted classifier and a fitted scaler. *)
Theorem auto_train_true_means_trained (w w' : World) :
  (0 <= lit 0.6)%Q ->
  auto_train w = (Ret true, w') ->
  is_trained (self w') = true /\ is_cond_trained (self w') = true /\
  (exists clf f st, model (self w') = Forest clf /\ fitted clf = Some f /\
                    scaler (self w') = Scaler (Some st)) /\
  (exists clf f st, cond_model (self w') = Forest clf /\ fitted clf = Some f /\
                    cond_scaler (self w') = Scaler (Some st)).
Proof.
  intros Hlit.
  destruct (generate_spec 1000 w) as ([[X yt] yc] & w0 & E & _ & _ & Hlen & _).
  change (1000 / 16)%Z with 62%Z in Hlen. change (Z.to_nat 62) with 62%nat in Hlen.
  change (16 * 62)%nat with 992%nat in Hlen. simpl in Hlen.
  destruct (train_model_cases X yt w0) as (rt & w1 & Et & _ & -> & Ht).
  destruct (train_condition_model_cases X yc w1) as (rc & w2 & Ec & Hframe & -> & Hc).
  unfold auto_train, mtry. unfold mbind at 1. rewrite E. cbv beta iota.
  rewrite Hlen. change (992 =? 0)%nat with false. cbv iota.
  unfold mbind. rewrite Et, Ec. unfold mret. intros [= Hok <-].
  apply andb_true_iff in Hok. destruct Hok as [Hokt Hokc].
  unfold type_outcome in Ht. unfold cond_outcome in Hc.
  destruct (type_training w0 X yt) as [[[st clf] r]|];
    [|cbn in Hokt; rewrite Qgtb_zero_false in Hokt by exact Hlit; discriminate Hokt].
  destruct (cond_training w1 X yc) as [[[st' clf'] r']|];
    [|cbn in Hokc; rewrite Qgtb_zero_false in Hokc by exact Hlit; discriminate Hokc].
  destruct Ht as (Hm & Hf & _ & _ & Hs & Htr & _).
  destruct Hc as (Hm' & Hf' & _ & _ & Hs' & Htr' & _).
  destruct Hframe as (_ & _ & _ & _ & Hfm & Hfs & Hft & _).
  destruct (fitted clf) as [f|] eqn:Efit; [|congruence].
  destruct (fitted clf') as [f'|] eqn:Efit'; [|congruence].
  split; [congruence|]. split; [exact Htr'|]. split.
  - exists clf, f, st. repeat split; congruence.
  - exists clf', f', st'. repeat split; assumption.
Qed.
End Persistence.


(** ** The order and the balance of the generated labels *)

Section GeneratedLabels.
Context {R : Rounding} {npr : NpRandom} {sk : Sklearn}.

Lemma blocks_labels (k : nat) (S : list (Z * Z)) (bs : list dataset) :
  Forall2 (fun tc b => block (fst tc) (snd tc) k b) S bs ->
  forall acc,
    snd (fst (foldl ds_app acc bs)) = snd (fst acc) ++ flat_map (fun tc => replicate k (fst tc)) S /\
    snd (foldl ds_app acc bs) = snd acc ++ flat_map (fun tc => replicate k (snd tc)) S.
Proof.
  induction 1 as [|[t c] b S bs Hb _ IH]; intros acc.
  - simpl. rewrite !app_nil_r. split; reflexivity.
  - cbn [foldl flat_map]. destruct (IH (ds_app acc b)) as [-> ->].
    destruct Hb as (Ht & Hc & _). simpl in Ht, Hc.
    unfold ds_app. cbn [fst snd]. rewrite Ht, Hc, <- !app_assoc. split; reflexivity.
Qed.

Lemma generate_labels (n : Z) (w : World) :
  exists X yt yc w',
    generate_synthetic_data n w = (Ret (X, yt, yc), w') /\
    yt = flat_map (fun tc => replicate (Z.to_nat (n / 16)) (fst tc)) strata /\
    yc = flat_map (fun tc => replicate (Z.to_nat (n / 16)) (snd tc)) strata.
Proof.
  destruct (generate_body_blocks n w) as (bs & w' & E & Hbs & _).
  destruct (blocks_labels _ _ _ Hbs ([], [], [])) as [Ht Hc].
  rewrite Z.div_div in * by lia. change (4 * 4)%Z with 16%Z in *.
  destruct (foldl ds_app ([], [], []) bs) as [[X yt] yc] eqn:Eds.
  exists X, yt, yc, w'. unfold generate_synthetic_data, mtry. rewrite E.
  split; [reflexivity|]. split; assumption.
Qed.

Lemma count_replicate (m : nat) (t c : Z) :
  length (filter (fun c' => c' = c) (replicate m t)) = if decide (t = c) then m else 0%nat.
Proof.
  induction m as [|m IH]; simpl; [destruct (decide (t = c)); reflexivity|].
  rewrite filter_cons. destruct (decide (t = c)); simpl; rewrite IH; reflexivity.
Qed.

Lemma existsb_false_forall {A} (f : A -> bool) (l : list A) :
  (forall x, x ∈ l -> f x = false) -> existsb f l = false.
Proof.
  induction l as [|a l IH]; intros H; simpl; [reflexivity|].
  rewrite (H a) by apply list_elem_of_here. apply IH.
  intros x Hx. apply H. apply list_elem_of_further, Hx.
Qed.

(** The labels come out in the order of the loops: the skin types in four
    runs of 4k, the skin conditions in runs of k that cycle four times,
    where k = floor(n / 16). *)
Theorem generated_labels_in_loop_order (n : Z) (w : World) :
  exists X yt yc w',
    generate_synthetic_data n w = (Ret (X, yt, yc), w') /\
    let k := Z.to_nat (n / 16) in
    let cycle := (replicate k 0 ++ replicate k 1 ++ replicate k 2 ++ replicate k 3)%Z in
    yt = (replicate (4 * k) 0 ++ replicate (4 * k) 1 ++
          replicate (4 * k) 2 ++ replicate (4 * k) 3)%Z /\
    yc = cycle ++ cycle ++ cycle ++ cycle.
Proof.
  destruct (generate_labels n w) as (X & yt & yc & w' & E & Ht & Hc).
  exists X, yt, yc, w'. split; [exact E|]. cbv zeta.
  replace (4 * Z.to_nat (n / 16))%nat
    with (Z.to_nat (n / 16) + (Z.to_nat (n / 16) + (Z.to_nat (n / 16) + Z.to_nat (n / 16))))%nat
    by lia.
  rewrite !replicate_add. rewrite Ht, Hc. unfold strata. cbn [flat_map fst snd].
  rewrite !app_nil_r, <- !app_assoc. split; reflexivity.
Qed.

(** No generated dataset is refused for a class with a single member:
    each label that occurs, occurs at least four times. *)
Theorem generated_data_passes_class_check (n : Z) (w : World) :
  exists X yt yc w',
    generate_synthetic_data n w = (Ret (X, yt, yc), w') /\
    train_test_split X yt = shuffle_split X yt /\
    train_test_split X yc = shuffle_split X yc.
Proof.
  destruct (generate_labels n w) as (X & yt & yc & w' & E & Ht & Hc).
  exists X, yt, yc, w'. split; [exact E|].
  unfold train_test_split.
  set (k := Z.to_nat (n / 16)) in *.
  assert (forall l : list Z,
            (forall c, c ∈ l -> (length (filter (fun c' => c' = c) l) <? 2)%nat = false) ->
            existsb (fun c => (length (filter (fun c' => c' = c) l) <? 2)%nat) l = false) as Hex
    by (intros l Hl; apply existsb_false_forall; exact Hl).
  unfold strata in Ht, Hc. cbn [flat_map fst snd] in Ht, Hc.
  split; rewrite Hex; try reflexivity; intros c Hin; apply Nat.ltb_ge.
  - rewrite Ht in *. rewrite !elem_of_app, !elem_of_replicate in Hin.
    rewrite !filter_app, !length_app, !count_replicate.
    assert (k <> 0%nat /\ label c) as [Hk Hl]
      by (unfold label; rewrite elem_of_nil in Hin; intuition).
    destruct Hl as [-> | [-> | [-> | ->]]]; repeat case_decide; lia.
  - rewrite Hc in *. rewrite !elem_of_app, !elem_of_replicate in Hin.
    rewrite !filter_app, !length_app, !count_replicate.
    assert (k <> 0%nat /\ label c) as [Hk Hl]
      by (unfold label; rewrite elem_of_nil in Hin; intuition).
    destruct Hl as [-> | [-> | [-> | ->]]]; repeat case_decide; lia.
Qed.
End GeneratedLabels.

(** ** Rectangles at the edge of the image, and the range of the features *)

Lemma py_slice_empty {A} (start stop : Z) (l : list A) :
  (0 <= start)%Z -> (0 <= stop)%Z ->
  (stop <= start \/ Z.of_nat (length l) <= start)%Z ->
  py_slice start stop l = [].
Proof.
  intros Hs Hp H. unfold py_slice, slice_index.
  destruct (Z.ltb_spec start 0); [lia|]. destruct (Z.ltb_spec stop 0); [lia|].
  replace (Z.to_nat (Z.min stop (Z.of_nat (length l)) - Z.min start (Z.of_nat (length l))))
    with 0%nat by lia.
  reflexivity.
Qed.

Lemma py_slice_past_end {A} (start stop stop' : Z) (l : list A) :
  (Z.of_nat (length l) <= stop)%Z -> (stop <= stop')%Z ->
  py_slice start stop' l = py_slice start stop l.
Proof.
  intros H H'. unfold py_slice, slice_index.
  destruct (Z.ltb_spec stop 0); [lia|]. destruct (Z.ltb_spec stop' 0); [lia|].
  rewrite (Z.min_r stop) by lia. rewrite (Z.min_r stop') by lia. reflexivity.
Qed.

Section Rectangles.
Context {R : Rounding} {cv : Cv2} {np : Numpy}.

Lemma empty_crop_gives_zeros (img : image) (x y w h : Z) :
  img_empty (crop img x y w h) = true ->
  extract_skin_features img (x, y, w, h) = Ret zeros18.
Proof.
  intros Hempty. unfold extract_skin_features, extract_body, cvtColor.
  rewrite Hempty. reflexivity.
Qed.

(** A rectangle of no width or no height, or one that starts at or beyond
    the bottom or the right edge, gives the zero vector. *)
Theorem degenerate_rectangle_gives_zeros (img : image) (x y w h : Z) :
  (0 <= x)%Z -> (0 <= y)%Z -> (0 <= w)%Z -> (0 <= h)%Z ->
  (w = 0 \/ h = 0 \/ Z.of_nat (length img) <= y \/
   Forall (fun row => Z.of_nat (length row) <= x) img)%Z ->
  extract_skin_features img (x, y, w, h) = Ret zeros18.
Proof.
  intros Hx Hy Hw Hh H. apply empty_crop_gives_zeros. unfold crop.
  assert (forall rows : list (list pixel),
            Forall (fun row => py_slice x (x + w) row = []) rows ->
            img_empty (map (py_slice x (x + w)) rows) = true) as Hcols.
  { intros [|row rows] Hall; [reflexivity|]. simpl.
    apply Forall_cons in Hall. destruct Hall as [-> _]. reflexivity. }
  destruct H as [-> | [-> | [H | H]]].
  - apply Hcols, Forall_forall. intros row _. apply py_slice_empty; lia.
  - rewrite py_slice_empty by lia. reflexivity.
  - rewrite py_slice_empty by lia. reflexivity.
  - apply Hcols. unfold py_slice at 2.
    apply Forall_take, Forall_drop. eapply Forall_impl; [exact H|].
    intros row Hrow. cbv beta in Hrow. apply py_slice_empty; lia.
Qed.

(** Once a rectangle reaches the right and the bottom edge of the image,
    making it wider or higher changes nothing. *)
Theorem overhanging_rectangle_is_clamped (img : image) (x y w h w' h' : Z) :
  (Z.of_nat (length img) <= y + h)%Z ->
  Forall (fun row => Z.of_nat (length row) <= x + w)%Z img ->
  (w <= w')%Z -> (h <= h')%Z ->
  extract_skin_features img (x, y, w', h') = extract_skin_features img (x, y, w, h).
Proof.
  intros Hrows Hcols Hw Hh.
  assert (crop img x y w' h' = crop img x y w h) as E.
  { unfold crop. rewrite (py_slice_past_end y (y + h) (y + h')) by lia.
    apply map_ext_in. intros row Hin.
    apply py_slice_past_end; [|lia].
    assert (Forall (fun row => Z.of_nat (length row) <= x + w)%Z
                   (py_slice y (y + h) img)) as Hsub
      by (unfold py_slice; apply Forall_take, Forall_drop, Hcols).
    rewrite Forall_forall in Hsub. apply Hsub, list_elem_of_In, Hin. }
  unfold extract_skin_features, extract_body. rewrite E. reflexivity.
Qed.
End Rectangles.

(** ** The range of the capped features and of the two ratios *)

Lemma py_min_le_cap (a b : Q) : (py_min a b <= b)%Q.
Proof.
  unfold py_min, Qgtb. destruct (Qle_bool a b) eqn:E; simpl.
  - apply Qle_bool_iff, E.
  - apply Qle_refl.
Qed.

Lemma countNonZero_threshold_range (g : gray) (t : Z) :
  (0 <= countNonZero (threshold g t 255) <= size_of g)%Z.
Proof.
  unfold countNonZero, size_of. rewrite concat_threshold. split; [lia|].
  apply inj_le. etransitivity; [apply length_filter|]. rewrite length_map. reflexivity.
Qed.

Section FeatureRanges.
Context {R : Rounding} {cv : Cv2} {np : Numpy}.

Lemma int_div_unit_range (a c : Z) (q : Q) :
  (0 <= a <= c)%Z -> int_div a c = Ret q -> (rnd 0 <= q <= rnd 1)%Q.
Proof.
  unfold int_div, fdiv. intros Hac.
  destruct (Qeq_bool (inject_Z c) 0) eqn:E; [discriminate|].
  intros [= <-].
  apply Qeq_bool_neq in E.
  assert (0 < inject_Z c)%Q as Hpos.
  { assert (c <> 0)%Z by (intros ->; apply E; reflexivity).
    change 0%Q with (inject_Z 0). rewrite <- Zlt_Qlt. lia. }
  split; apply rnd_mono.
  - apply Qle_shift_div_l; [exact Hpos|]. rewrite Qmult_0_l.
    change 0%Q with (inject_Z 0). rewrite <- Zle_Qle. lia.
  - apply Qle_shift_div_r; [exact Hpos|]. rewrite Qmult_1_l.
    rewrite <- Zle_Qle. lia.
Qed.

Ltac step_body :=
  match goal with
  | H : context [obind ?c _] |- _ =>
      let E := fresh "E" in destruct c eqn:E; simpl in H; [|discriminate H]
  | H : context [let '(_, _) := ?p in _] |- _ => destruct p
  end.

(** The three capped entries of a successful run. *)
Lemma extract_body_capped (img : image) (x y w h : Z) (v : list Q) :
  extract_body img (x, y, w, h) = Ret v ->
  exists a b c,
    v !! 12%nat = Some (rnd32 (py_min a 1)) /\
    v !! 13%nat = Some (rnd32 (py_min b 1)) /\
    v !! 17%nat = Some (rnd32 (py_min c 1)).
Proof.
  unfold extract_body. intros H.
  repeat step_body.
  injection H as <-.
  eexists _, _, _. repeat split; reflexivity.
Qed.

(** When the body of the extractor succeeds, the texture variance, the
    contrast and the texture complexity (entries 12, 13 and 17) are capped
    at 1, and the dark-spot and oily ratios (entries 15 and 16) lie between
    the roundings of 0 and of 1. *)
Theorem capped_features_in_range (img : image) (x y w h : Z) (v : list Q) :
  extract_body img (x, y, w, h) = Ret v ->
  (forall i q, (i = 12 \/ i = 13 \/ i = 17)%nat -> v !! i = Some q -> (q <= rnd32 1)%Q) /\
  (forall i q, (i = 15 \/ i = 16)%nat -> v !! i = Some q ->
               (rnd32 (rnd 0) <= q <= rnd32 (rnd 1))%Q).
Proof.
  intros Hbody. split.
  - destruct (extract_body_capped _ _ _ _ _ _ Hbody) as (a & b & c & H12 & H13 & H17).
    intros i q [-> | [-> | ->]] Hq; rewrite Hq in *;
      match goal with E : Some _ = Some _ |- _ => injection E as -> end;
      apply rnd32_mono, py_min_le_cap.
  - apply extract_body_inv in Hbody.
    destruct Hbody as (g & d & o & _ & _ & Hd & Ho & H15 & H16).
    intros i q [-> | ->] Hq; rewrite Hq in *;
      match goal with E : Some _ = Some _ |- _ => injection E as -> end.
    + apply int_div_unit_range in Hd; [|apply countNonZero_threshold_range].
      destruct Hd. split; apply rnd32_mono; assumption.
    + apply int_div_unit_range in Ho; [|apply countNonZero_threshold_range].
      destruct Ho. split; apply rnd32_mono; assumption.
Qed.
End FeatureRanges.

(** ** Password hashing *)

Lemma unhexlify_hexlify_cons (b : Byte.byte) (data : list Byte.byte) :
  unhexlify (hexlify (b :: data)) =
  obind (unhexlify (hexlify data)) (fun bs => Ret (b :: bs)).
Proof. destruct b; reflexivity. Qed.

Lemma unhexlify_hexlify (data : list Byte.byte) :
  unhexlify (hexlify data) = Ret data.
Proof.
  induction data as [|b data IH]; [reflexivity|].
  rewrite unhexlify_hexlify_cons, IH. reflexivity.
Qed.

Lemma hexlify_is_ascii (data : list Byte.byte) :
  encode_ascii (hexlify data) = Ret (hexlify data).
Proof.
  unfold encode_ascii.
  assert (forallb (fun c => (Ascii.N_of_ascii c <? 128)%N)
                  (list_ascii_of_string (hexlify data)) = true) as ->; [|reflexivity].
  induction data as [|b data IH]; [reflexivity|].
  cbn [hexlify list_ascii_of_string forallb]. rewrite IH.
  destruct b; reflexivity.
Qed.

Lemma unhexlify_odd (n : nat) (s : string) :
  String.length s = (2 * n + 1)%nat -> exists e, unhexlify s = Raise e.
Proof.
  revert s. induction n as [|n IH]; intros s Hlen.
  - destruct s as [|c1 [|c2 s']]; try discriminate Hlen. eexists. reflexivity.
  - destruct s as [|c1 [|c2 s']]; simpl in Hlen; try lia.
    destruct (IH s') as [e He]; [lia|].
    cbn [unhexlify]. rewrite He.
    destruct (hex_value c1), (hex_value c2); eexists; reflexivity.
Qed.

Section PasswordFacts.
Context {H : Hashlib}.

(** What [_hash_password] returns is accepted by [_verify_password] for
    the same password, whether the salt was given or drawn. *)
Theorem hashed_password_verifies (password : string) (salt : option (list Byte.byte))
  (urandom16 urandom16' : list Byte.byte) :
  _verify_password password
    (fst (_hash_password password salt urandom16))
    (snd (_hash_password password salt urandom16)) urandom16' = Ret true.
Proof.
  unfold _verify_password, _hash_password. cbn [fst snd].
  rewrite hexlify_is_ascii. cbn [obind]. rewrite unhexlify_hexlify. cbn [obind].
  rewrite String.eqb_refl. reflexivity.
Qed.

(** A stored salt of odd length is refused: the decoding error is caught
    and the answer is [False], whatever the password and the hash. *)
Theorem odd_salt_never_verifies (password salt_hex hash_hex : string)
  (urandom16 : list Byte.byte) :
  Nat.odd (String.length salt_hex) = true ->
  _verify_password password salt_hex hash_hex urandom16 = Ret false.
Proof.
  intros Hodd. unfold _verify_password, encode_ascii.
  destruct (forallb _ _); [|reflexivity]. cbn [obind].
  apply Nat.odd_spec in Hodd. destruct Hodd as [n Hn].
  destruct (unhexlify_odd n salt_hex Hn) as [e ->]. reflexivity.
Qed.
End PasswordFacts.

(** ** The categories and the routine of the recommender *)

Lemma str_in_spec (x : string) (l : list string) : str_in x l = true <-> x ∈ l.
Proof.
  unfold str_in. rewrite existsb_exists. split.
  - intros (y & Hin & Heq). apply String.eqb_eq in Heq. subst y.
    apply list_elem_of_In, Hin.
  - intros Hin. exists x. split; [apply list_elem_of_In, Hin|apply String.eqb_refl].
Qed.

Lemma add_unique_fold (l acc : list string) :
  NoDup acc ->
  exists ext,
    fold_left add_unique l acc = acc ++ ext /\
    NoDup (acc ++ ext) /\
    (forall x, x ∈ ext -> x ∈ l).
Proof.
  revert acc. induction l as [|c l IH]; intros acc Hnd; simpl.
  - exists []. rewrite app_nil_r. split; [reflexivity|]. split; [exact Hnd|].
    intros x Hx. inversion Hx.
  - unfold add_unique at 2. destruct (str_in c acc) eqn:E.
    + destruct (IH acc Hnd) as (ext & -> & Hnd' & Hsub).
      exists ext. split; [reflexivity|]. split; [exact Hnd'|].
      intros x Hx. apply elem_of_cons. right. apply Hsub, Hx.
    + assert (c ∉ acc) as Hc.
      { intros Hin. apply str_in_spec in Hin. congruence. }
      destruct (IH (acc ++ [c])) as (ext & -> & Hnd' & Hsub).
      { apply NoDup_app. split; [exact Hnd|]. split; [|apply NoDup_singleton].
        intros x Hx Hx'. apply list_elem_of_singleton in Hx'. subst x. exact (Hc Hx). }
      exists (c :: ext). rewrite <- app_assoc in *. simpl in *.
      split; [reflexivity|]. split; [exact Hnd'|].
      intros x Hx. apply elem_of_cons in Hx. apply elem_of_cons.
      destruct Hx as [-> | Hx]; [left; reflexivity|right; apply Hsub, Hx].
Qed.

Lemma unique_in_order_spec (l : list string) :
  NoDup (unique_in_order l) /\ forall x, x ∈ unique_in_order l -> x ∈ l.
Proof.
  destruct (add_unique_fold l [] NoDup_nil_2) as (ext & E & Hnd & Hsub).
  unfold unique_in_order. rewrite E. simpl in *. split; assumption.
Qed.

Lemma unique_in_order_head (rest : list string) :
  exists ext,
    unique_in_order ("cleanser" :: "moisturizer" :: rest)%string
    = ("cleanser" :: "moisturizer" :: ext)%string /\
    forall x, x ∈ ext -> x ∈ rest.
Proof.
  destruct (add_unique_fold rest ["cleanser"; "moisturizer"]%string) as (ext & E & _ & Hsub).
  { apply NoDup_cons. split; [|apply NoDup_singleton].
    intros Hin. apply list_elem_of_singleton in Hin. discriminate Hin. }
  exists ext. split; [|exact Hsub].
  unfold unique_in_order. exact E.
Qed.

Lemma budget_levels_cases (budget_level : string) (cats : list string) :
  budget_levels_rules !! budget_level = Some cats ->
  cats = ["cleanser"; "moisturizer"]%string \/
  cats = ["cleanser"; "serum"; "moisturizer"]%string \/
  cats = ["cleanser"; "serum"; "moisturizer"; "sunscreen"]%string.
Proof.
  intros Hl. unfold budget_levels_rules in Hl.
  apply elem_of_list_to_map_2 in Hl.
  repeat (apply elem_of_cons in Hl; destruct Hl as [Hl | Hl]);
    try (injection Hl as _ <-; tauto).
  inversion Hl.
Qed.

Lemma concerns_extend (concerns : list string) (base : list string) :
  exists ext,
    fold_left (fun base concern =>
                 match skin_concerns_rules !! concern with
                 | Some cats => base ++ cats
                 | None => base
                 end) concerns base = base ++ ext.
Proof.
  revert base. induction concerns as [|c cs IH]; intros base; simpl.
  - exists []. rewrite app_nil_r. reflexivity.
  - destruct (skin_concerns_rules !! c) as [cats|].
    + destruct (IH (base ++ cats)) as [ext ->]. exists (cats ++ ext).
      rewrite app_assoc. reflexivity.
    + apply IH.
Qed.

Lemma filter_keeps_base (cats rest : list string) :
  cats = ["cleanser"; "moisturizer"]%string \/
  cats = ["cleanser"; "serum"; "moisturizer"]%string \/
  cats = ["cleanser"; "serum"; "moisturizer"; "sunscreen"]%string ->
  List.filter (fun cat => str_in cat cats) ("cleanser" :: "moisturizer" :: rest)%string
  = ("cleanser" :: "moisturizer" :: List.filter (fun cat => str_in cat cats) rest)%string.
Proof. intros [-> | [-> | ->]]; reflexivity. Qed.

(** Before the loop that removes repetitions the list starts with the two
    base categories, and under a known budget holds nothing outside it. *)
Lemma required_categories_form skin_type skin_condition skin_concerns age_group budget_level :
  exists rest,
    _get_required_categories skin_type skin_condition skin_concerns age_group budget_level
    = take 4 (unique_in_order ("cleanser" :: "moisturizer" :: rest)%string) /\
    forall cats, budget_levels_rules !! budget_level = Some cats ->
                 forall x, x ∈ rest -> x ∈ cats.
Proof.
  assert (forall base : list string,
            exists rest,
              take 4 (unique_in_order
                        match budget_levels_rules !! budget_level with
                        | Some budget_categories =>
                            List.filter (fun cat => str_in cat budget_categories)
                                        ("cleanser" :: "moisturizer" :: base)%string
                        | None => ("cleanser" :: "moisturizer" :: base)%string
                        end)
              = take 4 (unique_in_order ("cleanser" :: "moisturizer" :: rest)%string) /\
              forall cats, budget_levels_rules !! budget_level = Some cats ->
                           forall x, x ∈ rest -> x ∈ cats) as Hbudget.
  { intros base. destruct (budget_levels_rules !! budget_level) as [cats|] eqn:E.
    - rewrite filter_keeps_base by (eapply budget_levels_cases, E).
      eexists. split; [reflexivity|].
      intros cats' [= <-] x Hx. apply list_elem_of_In, filter_In in Hx.
      apply str_in_spec, Hx.
    - eexists. split; [reflexivity|]. intros cats' Hc. discriminate Hc. }
  assert (forall base : list string,
            exists rest,
              match age_groups_rules !! age_group with
              | Some cats => ("cleanser" :: "moisturizer" :: base)%string ++ cats
              | None => ("cleanser" :: "moisturizer" :: base)%string
              end = ("cleanser" :: "moisturizer" :: rest)%string) as Hage.
  { intros base. destruct (age_groups_rules !! age_group); eexists; reflexivity. }
  assert (forall base : list string,
            exists rest,
              match skin_concerns with
              | Some concerns =>
                  fold_left (fun base concern =>
                               match skin_concerns_rules !! concern with
                               | Some cats => base ++ cats
                               | None => base
                               end) concerns ("cleanser" :: "moisturizer" :: base)%string
              | None => ("cleanser" :: "moisturizer" :: base)%string
              end = ("cleanser" :: "moisturizer" :: rest)%string) as Hconcerns.
  { intros base. destruct skin_concerns as [concerns|]; [|eexists; reflexivity].
    destruct (concerns_extend concerns ("cleanser" :: "moisturizer" :: base)%string) as [ext ->].
    eexists. reflexivity. }
  unfold _get_required_categories.
  destruct (truthy_str skin_condition);
    [destruct (bool_decide (skin_condition = Some "Mụn"%string));
       [|destruct (bool_decide (skin_condition = Some "Nám/tàn nhang"%string)
                   || bool_decide (skin_condition = Some "Lỗ chân lông to"%string))]|];
    cbn [app];
    match goal with
    | |- context [match skin_concerns with Some _ => _ | None => ?b end] =>
        match b with
        | (_ :: _ :: ?base) =>
            destruct (Hconcerns base) as [r2 ->];
            destruct (Hage r2) as [r3 ->];
            apply Hbudget
        end
    end.
Qed.

Lemma required_categories_head (skin_type : string) (skin_condition : option string)
  (skin_concerns : option (list string)) (age_group budget_level : string) :
  exists others,
    _get_required_categories skin_type skin_condition skin_concerns age_group budget_level
    = ("cleanser" :: "moisturizer" :: others)%string /\
    (length others <= 2)%nat /\
    NoDup ("cleanser" :: "moisturizer" :: others)%string.
Proof.
  destruct (required_categories_form skin_type skin_condition skin_concerns age_group
              budget_level) as (rest & -> & _).
  pose proof (unique_in_order_spec ("cleanser" :: "moisturizer" :: rest)%string) as [Hnd _].
  destruct (unique_in_order_head rest) as (ext & E & _). rewrite E in *.
  exists (take 2 ext). split; [reflexivity|]. split.
  - rewrite length_take. lia.
  - change ("cleanser" :: "moisturizer" :: take 2 ext)%string
      with (take 4 ("cleanser" :: "moisturizer" :: ext)%string).
    eapply sublist_NoDup; [exact Hnd|apply sublist_take].
Qed.

(** Whatever the profile, the required categories are at most four, without
    repetition, and begin with the cleanser and the moisturizer. *)
Theorem required_categories_shape (skin_type : string) (skin_condition : option string)
  (skin_concerns : option (list string)) (age_group budget_level : string) :
  exists others,
    _get_required_categories skin_type skin_condition skin_concerns age_group budget_level
    = ("cleanser" :: "moisturizer" :: others)%string /\
    (length others <= 2)%nat /\
    NoDup ("cleanser" :: "moisturizer" :: others)%string.
Proof. apply required_categories_head. Qed.

(** With one of the three known budget levels only categories of that
    level are required: the low budget leaves the cleanser and the
    moisturizer alone, and the spot treatment of the acne branch is always
    filtered out. *)
Theorem known_budget_limits_categories (skin_type : string) (skin_condition : option string)
  (skin_concerns : option (list string)) (age_group budget_level : string)
  (budget_categories : list string) :
  budget_levels_rules !! budget_level = Some budget_categories ->
  let required :=
    _get_required_categories skin_type skin_condition skin_concerns age_group budget_level in
  Forall (fun cat => cat ∈ budget_categories) required /\
  ("spot treatment"%string ∉ required) /\
  (budget_level = "thấp"%string -> required = ["cleanser"; "moisturizer"]%string).
Proof.
  intros Hb required.
  assert (Forall (fun cat => cat ∈ budget_categories) required) as Hall.
  { subst required.
    destruct (required_categories_form skin_type skin_condition skin_concerns age_group
                budget_level) as (rest & -> & Hsub).
    destruct (unique_in_order_head rest) as (ext & -> & Hext).
    apply Forall_take. apply Forall_forall. intros x Hx.
    apply budget_levels_cases in Hb as Hcases.
    apply elem_of_cons in Hx. destruct Hx as [-> | Hx].
    { destruct Hcases as [-> | [-> | ->]]; set_solver. }
    apply elem_of_cons in Hx. destruct Hx as [-> | Hx].
    { destruct Hcases as [-> | [-> | ->]]; set_solver. }
    apply (Hsub _ Hb), Hext, Hx. }
  split; [exact Hall|]. split.
  - intros Hin. rewrite Forall_forall in Hall. apply Hall in Hin.
    apply budget_levels_cases in Hb.
    destruct Hb as [-> | [-> | ->]];
      repeat (apply elem_of_cons in Hin; destruct Hin as [Hin | Hin]; [discriminate Hin|]);
      inversion Hin.
  - intros ->.
    destruct (required_categories_head skin_type skin_condition skin_concerns age_group
                "thấp"%string) as (others & E & _ & Hnd).
    fold required in E. rewrite E in *.
    assert (budget_categories = ["cleanser"; "moisturizer"]%string) as ->.
    { unfold budget_levels_rules in Hb. vm_compute in Hb. congruence. }
    destruct others as [|o others]; [reflexivity|]. exfalso.
    apply Forall_cons in Hall. destruct Hall as [_ Hall].
    apply Forall_cons in Hall. destruct Hall as [_ Hall].
    apply Forall_cons in Hall. destruct Hall as [Ho _].
    apply NoDup_cons in Hnd. destruct Hnd as [H1 Hnd].
    apply NoDup_cons in Hnd. destruct Hnd as [H2 _].
    apply elem_of_cons in Ho. destruct Ho as [-> | Ho].
    + apply H1. set_solver.
    + apply list_elem_of_singleton in Ho. subst o. apply H2. set_solver.
Qed.

(** The steps of a routine are numbered 1, 2, ... in order, and there are
    at most five of them. *)
Theorem routine_steps_are_numbered (recommended_products : list product_info)
  (skin_condition : option string) :
  let routine := _create_skincare_routine recommended_products skin_condition in
  map rs_step routine = map Z.of_nat (seq 1 (length routine)) /\
  (length routine <= 5)%nat.
Proof.
  unfold _create_skincare_routine, condition_step. cbn [fold_left].
  repeat match goal with
         | |- context [List.find ?f ?l] => destruct (List.find f l)
         end;
    repeat case_bool_decide; cbn; split; first [reflexivity | lia].
Qed.

(** ** The statements on concrete inputs *)

Import Toy Examples.

Lemma toy_forest_ok : forest_ok one_rule.
Proof.
  split; [reflexivity|]. split; [reflexivity|].
  intros [|x row]; simpl.
  - split; [reflexivity|]. vm_compute. discriminate.
  - destruct (Qle_bool x 0); (split; [reflexivity|]); vm_compute; discriminate.
Qed.

Lemma toy_scaler_ok : scaler_ok unit_scaler.
Proof. split; reflexivity. Qed.

Lemma toy_type_ready : type_ready ready.
Proof.
  split; [reflexivity|]. exists (one_rule_clf 40 7), one_rule, unit_scaler.
  repeat split; try reflexivity; try apply toy_forest_ok.
Qed.

Lemma toy_cond_ready : cond_ready ready.
Proof.
  split; [reflexivity|]. exists (one_rule_clf 50 8), one_rule, unit_scaler.
  repeat split; try reflexivity; try apply toy_forest_ok.
Qed.

Lemma run16_eq :
  generate_synthetic_data 16 w0 =
    (Ret (X16, yt16, yc16), snd (generate_synthetic_data 16 w0)).
Proof.
  assert (fst (generate_synthetic_data 16 w0) = Ret (X16, yt16, yc16)) as E
    by (vm_compute; reflexivity).
  destruct (generate_synthetic_data 16 w0) as [r w']. simpl in E. subst r. reflexivity.
Qed.

Lemma oily_ratio_le_dark_spot_ratio_witness :
  extract_skin_features img22 (0, 0, 2, 2)%Z = Ret v22 /\
  exists dark_spot_ratio oily_ratio,
    v22 !! 15%nat = Some dark_spot_ratio /\
    v22 !! 16%nat = Some oily_ratio /\
    (oily_ratio <= dark_spot_ratio)%Q.
Proof.
  apply (oily_ratio_le_dark_spot_ratio img22 0 0 2 2 v22).
  vm_compute. reflexivity.
Defined.

Lemma samples_are_clamped_noisy_prototypes_witness :
  exists row, X16 !! 0%nat = Some row /\
  exists t c g,
    yt16 !! 0%nat = Some t /\ yc16 !! 0%nat = Some c /\ label t /\ label c /\
    row = map (np_clip 0 1)
              (zip_with fadd (perturbed_prototype t c) (fst (normal_from g 0 (noise_sd t) 18))) /\
    length row = 18%nat /\
    Forall (fun v => (0 <= v <= 1)%Q) row.
Proof.
  eexists. split; [reflexivity|].
  apply (samples_are_clamped_noisy_prototypes 16 w0 _ X16 yt16 yc16 run16_eq 0%nat).
  reflexivity.
Defined.

Lemma train_returns_zero_on_small_class_witness :
  train_model [features18] [0%Z] w0 = (Ret 0%Q, w0) /\
  train_condition_model [features18] [0%Z] w0 = (Ret 0%Q, w0).
Proof.
  apply (train_returns_zero_on_small_class [features18] [0%Z] w0).
  exists 0%Z. split; [apply list_elem_of_here|]. vm_compute. lia.
Defined.



(** C5, as stated, fails: the analyzer constructed over a model file whose
    scaler file is unreadable holds a classifier and an unfitted scaler,
    and [predict_skin_type] reports the model, not the scaler. *)
Lemma scaler_check_behind_trained_flag :
  model half_loaded = Forest (one_rule_clf 40 7) /\
  scaler half_loaded = Scaler None /\
  predict_skin_type half_loaded row18 = Ret (Error "Model chưa được huấn luyện") /\
  predict_skin_type half_loaded row18 <>
    Ret (Error "Bộ chuẩn hóa (scaler) chưa được huấn luyện").
Proof.
  assert (half_loaded = set_model (Forest (one_rule_clf 40 7)) fresh) as E
    by (vm_compute; reflexivity).
  rewrite E. split; [reflexivity|]. split; [reflexivity|].
  split; [reflexivity|]. discriminate.
Qed.

(** C6, as stated, fails: training on a single sample returns 0.0 and
    raises nothing. *)
Lemma train_single_sample_returns_zero :
  fst (train_model [features18] [0%Z] w0) = Ret 0%Q /\
  forall e, fst (train_model [features18] [0%Z] w0) <> Raise e.
Proof.
  assert (fst (train_model [features18] [0%Z] w0) = Ret 0%Q) as E
    by (vm_compute; reflexivity).
  rewrite E. split; [reflexivity|]. discriminate.
Qed.

(** C8, as stated, fails: the seeds 1 and 2 give different random draws
    and yet the same samples. *)
Lemma different_seeds_same_samples :
  (1 <> 2)%Z /\
  fst (gauss (seed 1)) <> fst (gauss (seed 2)) /\
  fst (generate_synthetic_data 1000 (Toy.world Toy.fresh ∅ (seed 1))) =
  fst (generate_synthetic_data 1000 (Toy.world Toy.fresh ∅ (seed 2))).
Proof.
  split; [discriminate|]. split; [vm_compute; discriminate|].
  rewrite (generate_same_object 1000 (Toy.world Toy.fresh ∅ (seed 2)) (Toy.world Toy.fresh ∅ (seed 1))).
  - reflexivity.
  - repeat split; reflexivity.
Qed.

(** C2, as stated, fails: with a model path that cannot be written both
    held-out accuracies are 0.9, above 0.6, and yet [auto_train] answers
    [False], because [train_model] returns 0.0 when saving fails. *)
Lemma saving_failure_hides_accuracy :
  fst (generate_synthetic_data 1000 ToyMore.locked)
    = Ret (ToyMore.X1000, ToyMore.yt1000, ToyMore.yc1000) /\
  held_out (sk := ToyMore.sk_accurate) 40 7 ToyMore.X1000 ToyMore.yt1000
    = Ret (unit_scaler, one_rule_clf 40 7, 0.9%Q) /\
  held_out (sk := ToyMore.sk_accurate) 50 8 ToyMore.X1000 ToyMore.yc1000
    = Ret (unit_scaler, one_rule_clf 50 8, 0.9%Q) /\
  (lit 0.6 < 0.9)%Q /\
  fst (auto_train (sk := ToyMore.sk_accurate) ToyMore.locked) = Ret false.
Proof.
  split; [|split; [|split; [|split]]].
  - unfold ToyMore.X1000, ToyMore.yt1000, ToyMore.yc1000, ToyMore.generated1000.
    destruct (generate_spec 1000 ToyMore.locked) as ([[X yt] yc] & w' & -> & _).
    reflexivity.
  - vm_compute. reflexivity.
  - vm_compute. reflexivity.
  - vm_compute. reflexivity.
  - vm_compute. reflexivity.
Qed.


(** ** The further statements on concrete inputs *)

Import ToyMore.

Lemma predicted_type_has_tips_witness :
  skin_care_tips !! skin_type p18 = Some (get_skin_care_tips (skin_type p18)) /\
  length (get_skin_care_tips (skin_type p18)) = 5%nat /\
  skin_descriptions !! skin_type p18 = Some (description p18).
Proof.
  apply (predicted_type_has_tips ready row18 p18).
  vm_compute. reflexivity.
Defined.

Lemma analyze_skin_ready_witness :
  exists p q,
    analyze_skin ready img22 (0, 0, 2, 2)%Z = Ret (Success p, Success q) /\
    good_type_prediction p /\ good_cond_prediction q.
Proof.
  apply (analyze_skin_ready ready img22 0 0 2 2 toy_type_ready toy_cond_ready).
Defined.

Lemma two_samples_trained :
  train_model two_samples two_labels w0 =
    (Ret (2 # 2)%Q, snd (train_model two_samples two_labels w0)).
Proof.
  assert (fst (train_model two_samples two_labels w0) = Ret (2 # 2)%Q) as E
    by (vm_compute; reflexivity).
  destruct (train_model two_samples two_labels w0) as [r w']. simpl in E. subst r. reflexivity.
Qed.

Lemma trained_model_survives_reload_witness :
  exists w'',
    __init__ (model_path (self w0)) (cond_model_path (self w0))
             (snd (train_model two_samples two_labels w0)) = (Ret tt, w'') /\
    model (self w'') = model (self (snd (train_model two_samples two_labels w0))) /\
    scaler (self w'') = scaler (self (snd (train_model two_samples two_labels w0))) /\
    is_trained (self w'') = true /\
    forall X, predict_skin_type (self w'') X =
              predict_skin_type (self (snd (train_model two_samples two_labels w0))) X.
Proof.
  apply (trained_model_survives_reload two_samples two_labels w0
           (snd (train_model two_samples two_labels w0)) (2 # 2)%Q).
  - exact two_samples_trained.
  - reflexivity.
  - vm_compute. reflexivity.
  - reflexivity.
  - vm_compute. discriminate.
Defined.

Lemma accurate_auto_train :
  auto_train (sk := sk_accurate) w0 = (Ret true, snd (auto_train (sk := sk_accurate) w0)).
Proof.
  assert (fst (auto_train (sk := sk_accurate) w0) = Ret true) as E
    by (vm_compute; reflexivity).
  destruct (auto_train (sk := sk_accurate) w0) as [r w']. simpl in E. subst r. reflexivity.
Qed.

Lemma auto_train_true_means_trained_witness :
  is_trained (self (snd (auto_train (sk := sk_accurate) w0))) = true /\
  is_cond_trained (self (snd (auto_train (sk := sk_accurate) w0))) = true /\
  (exists clf f st, model (self (snd (auto_train (sk := sk_accurate) w0))) = Forest clf /\
                    fitted clf = Some f /\
                    scaler (self (snd (auto_train (sk := sk_accurate) w0))) = Scaler (Some st)) /\
  (exists clf f st, cond_model (self (snd (auto_train (sk := sk_accurate) w0))) = Forest clf /\
                    fitted clf = Some f /\
                    cond_scaler (self (snd (auto_train (sk := sk_accurate) w0))) = Scaler (Some st)).
Proof.
  apply (auto_train_true_means_trained (sk := sk_accurate) w0
           (snd (auto_train (sk := sk_accurate) w0))).
  - vm_compute. discriminate.
  - exact accurate_auto_train.
Defined.

Lemma degenerate_rectangle_gives_zeros_witness :
  extract_skin_features img22 (1, 0, 0, 2)%Z = Ret zeros18.
Proof.
  apply (degenerate_rectangle_gives_zeros img22 1 0 0 2); lia.
Defined.

Lemma overhanging_rectangle_is_clamped_witness :
  extract_skin_features img22 (1, 1, 5, 7)%Z = extract_skin_features img22 (1, 1, 1, 1)%Z.
Proof.
  apply (overhanging_rectangle_is_clamped img22 1 1 1 1 5 7).
  - simpl. lia.
  - repeat (apply Forall_cons; split; [simpl; lia|]). apply Forall_nil_2.
  - lia.
  - lia.
Defined.

Lemma capped_features_in_range_witness :
  (forall i q, (i = 12 \/ i = 13 \/ i = 17)%nat -> v22 !! i = Some q -> (q <= rnd32 1)%Q) /\
  (forall i q, (i = 15 \/ i = 16)%nat -> v22 !! i = Some q ->
               (rnd32 (rnd 0) <= q <= rnd32 (rnd 1))%Q).
Proof.
  apply (capped_features_in_range img22 0 0 2 2 v22).
  vm_compute. reflexivity.
Defined.

Lemma odd_salt_never_verifies_witness :
  _verify_password (H := hl) "secret" "0af" "0a" [] = Ret false.
Proof.
  apply (odd_salt_never_verifies (H := hl) "secret" "0af" "0a" []).
  reflexivity.
Defined.

Lemma known_budget_limits_categories_witness :
  let required :=
    _get_required_categories "Da dầu" (Some "Mụn"%string) (Some ["mụn"; "da dầu"]%string)
                             "26-35" "thấp" in
  Forall (fun cat => cat ∈ ["cleanser"; "moisturizer"]%string) required /\
  ("spot treatment"%string ∉ required) /\
  ("thấp"%string = "thấp"%string -> required = ["cleanser"; "moisturizer"]%string).
Proof.
  apply (known_budget_limits_categories "Da dầu" (Some "Mụn"%string)
           (Some ["mụn"; "da dầu"]%string) "26-35" "thấp" ["cleanser"; "moisturizer"]%string).
  vm_compute. reflexivity.
Defined.
